(** * Conway's Game of Life on a toroidal board: [game_of_life.py]

    A shallow embedding of the [GameOfLife] class and the properties of its
    engine ([populate_board], [count_alive_neighbours], [update_board],
    [save_config]) and of its interaction loop ([game_loop],
    [game_controller]).

    Python exceptions are values of an error monad; the NumPy array is a
    record with its shape and its rows; the collaborators of the class (the
    file [config.json], the entropy source of [np.random] and the curses
    window) are the fields of a [World] record threaded through the
    methods that use them. *)

From Stdlib Require Import ZArith Lia List String Bool.
From stdpp Require Import base option list gmap strings.

Local Open Scope string_scope.
Local Open Scope Z_scope.

(** ** Exceptions *)

Inductive exn : Type :=
  | ZeroDivisionError
  | IndexError
  | ValueError
  | KeyError
  | OSError.

Inductive result (A : Type) : Type :=
  | Ok (a : A)
  | Raise (e : exn).

Arguments Ok {A} a.
Arguments Raise {A} e.

#[global] Instance result_ret : MRet result := fun A a => Ok a.

#[global] Instance result_bind : MBind result := fun A B f m =>
  match m with
  | Ok a => f a
  | Raise e => Raise e
  end.

(** A [for] loop whose body may raise: the first exception ends the loop. *)
Fixpoint foldM {A B : Type} (f : A -> B -> result A) (a : A) (l : list B)
  : result A :=
  match l with
  | [] => Ok a
  | b :: l' => a' ← f a b; foldM f a' l'
  end.

(** ** Python integers and sequences *)

(** [a % b]: floored remainder, the sign of the divisor, as [Z.modulo]. *)
Definition py_mod (a b : Z) : result Z :=
  if b =? 0 then Raise ZeroDivisionError else Ok (a mod b).

(** [range(lo, hi)]. *)
Definition py_range (lo hi : Z) : list Z :=
  map (fun i : nat => lo + Z.of_nat i) (seq 0 (Z.to_nat (hi - lo))).

(** [d[k]] on a dict. *)
Definition dict_get {V : Type} (d : gmap Z V) (k : Z) : result V :=
  match d !! k with
  | Some v => Ok v
  | None => Raise KeyError
  end.

Definition config_get {V : Type} (d : gmap string V) (k : string) : result V :=
  match d !! k with
  | Some v => Ok v
  | None => Raise KeyError
  end.

(** [l[0]] on a list. *)
Definition list_first {V : Type} (l : list V) : result V :=
  match l with
  | v :: _ => Ok v
  | [] => Raise IndexError
  end.

(** ** NumPy: two-dimensional arrays of [dtype=int] *)

(** Scalars of [dtype=int] are 64-bit and wrap around. *)
Definition wrap64 (z : Z) : Z := (z + 2 ^ 63) mod 2 ^ 64 - 2 ^ 63.
Definition add64 (a b : Z) : Z := wrap64 (a + b).
Definition sub64 (a b : Z) : Z := wrap64 (a - b).

(** A template of the configuration file: a list of rows. *)
Abbreviation pattern := (list (list Z)).

Record ndarray : Type := {
  nrows : nat;
  ncols : nat;
  data : list (list Z);
}.

(** [a.shape] *)
Definition shape (a : ndarray) : nat * nat := (nrows a, ncols a).

(** [np.zeros((r, c), dtype=int)]; a negative dimension is a [ValueError]. *)
Definition zeros (r c : nat) : ndarray :=
  {| nrows := r; ncols := c; data := replicate r (replicate c 0) |}.

Definition np_zeros (r c : Z) : result ndarray :=
  if (r <? 0) || (c <? 0) then Raise ValueError
  else Ok (zeros (Z.to_nat r) (Z.to_nat c)).

(** An index along an axis of length [n]: negative indices count from the
    end, anything outside [-n, n) is an [IndexError]. *)
Definition norm_index (n : nat) (i : Z) : result nat :=
  if (0 <=? i) && (i <? Z.of_nat n) then Ok (Z.to_nat i)
  else if (- Z.of_nat n <=? i) && (i <? 0) then Ok (Z.to_nat (i + Z.of_nat n))
  else Raise IndexError.

Definition cell (a : ndarray) (i j : nat) : option Z :=
  row ← data a !! i; row !! j.

(** [a[x, y]] *)
Definition getitem (a : ndarray) (x y : Z) : result Z :=
  i ← norm_index (nrows a) x;
  j ← norm_index (ncols a) y;
  match cell a i j with
  | Some v => Ok v
  | None => Raise IndexError
  end.

(** [a[x, y] = v] *)
Definition setitem (a : ndarray) (x y : Z) (v : Z) : result ndarray :=
  i ← norm_index (nrows a) x;
  j ← norm_index (ncols a) y;
  Ok {| nrows := nrows a; ncols := ncols a;
        data := alter (fun row => <[j := v]> row) i (data a) |}.

(** [np.ndindex(shape)]: every index, row by row. *)
Definition ndindex (s : nat * nat) : list (nat * nat) :=
  r ← seq 0 (fst s); c ← seq 0 (snd s); [(r, c)].

(** [a.tolist()] *)
Definition tolist (a : ndarray) : pattern := data a.

(** [np.asarray(p)] on a non-empty nested list: the rows must all have the
    length of the first one, a ragged list is a [ValueError]. *)
Definition asarray (p : pattern) : result ndarray :=
  match p with
  | [] => Raise ValueError
  | row0 :: _ =>
      if forallb (fun row => Nat.eqb (length row) (length row0)) p
      then Ok {| nrows := length p; ncols := length row0; data := p |}
      else Raise ValueError
  end.

(** Broadcasting of a value of shape [(vr, vc)] to a target of shape
    [(tr, tc)]: along each axis the lengths agree or the value has length 1. *)
Definition broadcastable (vr vc tr tc : nat) : bool :=
  (Nat.eqb vr tr || Nat.eqb vr 1) && (Nat.eqb vc tc || Nat.eqb vc 1).

Definition broadcast_cell (v : ndarray) (i j : nat) : Z :=
  default 0 (cell v (if Nat.eqb (nrows v) 1 then 0%nat else i)
                    (if Nat.eqb (ncols v) 1 then 0%nat else j)).

Definition broadcast_to (v : ndarray) (tr tc : nat) : list (list Z) :=
  (fun i => (fun j => broadcast_cell v i j) <$> seq 0 tc) <$> seq 0 tr.

(** The first cells of [old] replaced by those of [new]. *)
Definition overlay {A : Type} (new old : list A) : list A :=
  new ++ drop (length new) old.

(** [a[0:stop_r, 0:stop_c] = v]: the slice stops are clipped to the shape
    of [a], and [v] is broadcast to the shape of the clipped slice; a value
    that does not broadcast is a [ValueError]. *)
Definition setitem_slice (a : ndarray) (stop_r stop_c : nat) (v : ndarray)
  : result ndarray :=
  let tr := Nat.min stop_r (nrows a) in
  let tc := Nat.min stop_c (ncols a) in
  if broadcastable (nrows v) (ncols v) tr tc then
    Ok {| nrows := nrows a; ncols := ncols a;
          data := overlay (zip_with overlay (broadcast_to v tr tc)
                                            (take tr (data a)))
                          (data a) |}
  else Raise ValueError.

(** ** The collaborators *)

(** A call on the curses window. *)
Inductive curses_call : Type :=
  | Addstr (y x : Z) (s : string)
  | Rectangle (uly ulx lry lrx : Z)
  | Refresh
  | CursSet (visibility : Z).

Record World : Type := {
  (** the content of [config.json], when the file is there *)
  config_json : option (gmap string pattern);
  (** the entropy source of [np.random] and how much of it was drawn *)
  entropy : nat -> Z;
  drawn : nat;
  (** [stdscr.getmaxyx()] *)
  maxyx : Z * Z;
  (** the calls made on [stdscr], the latest first *)
  stdscr : list curses_call;
}.

Definition set_config_json (w : World) (f : gmap string pattern) : World :=
  {| config_json := Some f; entropy := entropy w; drawn := drawn w;
     maxyx := maxyx w; stdscr := stdscr w |}.

Definition set_drawn (w : World) (n : nat) : World :=
  {| config_json := config_json w; entropy := entropy w; drawn := n;
     maxyx := maxyx w; stdscr := stdscr w |}.

Definition call (w : World) (c : curses_call) : World :=
  {| config_json := config_json w; entropy := entropy w; drawn := drawn w;
     maxyx := maxyx w; stdscr := c :: stdscr w |}.

(** [np.random.randint(low, high, (r, c))]: every cell is drawn from
    [low, high). *)
Definition randint (low high : Z) (r c : nat) (w : World) : ndarray * World :=
  ({| nrows := r; ncols := c;
      data := (fun i =>
                 (fun j => low + entropy w (drawn w + i * c + j)%nat
                                       mod (high - low))
                 <$> seq 0 c)
               <$> seq 0 r |},
   set_drawn w (drawn w + r * c)%nat).

(** ** The class *)

Record GameOfLife : Type := {
  SCREEN_WIDTH : Z;
  SCREEN_HEIGHT : Z;
  ROWS : Z;
  COLS : Z;
  board : ndarray;
  CONFIG : gmap string pattern;
}.

Definition LEFT_MARGIN : Z := 2.
Definition RIGHT_MARGIN : Z := 13.
Definition TOP_MARGIN : Z := 3.
Definition BOTTOM_MARGIN : Z := 2.

(** [ord] of the keys of the menu. *)
Definition ord_0 : Z := 48.
Definition ord_r : Z := 114.
Definition ord_s : Z := 115.
Definition ord_S : Z := 83.
Definition ord_q : Z := 113.
Definition ord_Q : Z := 81.
Definition KEY_ENTER : Z := 343.

Definition OPTIONS : gmap Z string :=
  list_to_map
    [ (ord_0, "Block"); (ord_0 + 1, "Beehive"); (ord_0 + 2, "Loaf");
      (ord_0 + 3, "Boat"); (ord_0 + 4, "Tub"); (ord_0 + 5, "Blinker");
      (ord_0 + 6, "Toad"); (ord_0 + 7, "Beacon"); (ord_0 + 8, "Glider");
      (ord_0 + 9, "Saved"); (ord_r, "Random") ].

(** [GameOfLife()] *)
Definition init : GameOfLife :=
  {| SCREEN_WIDTH := 0; SCREEN_HEIGHT := 0; ROWS := 0; COLS := 0;
     board := zeros 10 10; CONFIG := ∅ |}.

Definition set_board (self : GameOfLife) (b : ndarray) : GameOfLife :=
  {| SCREEN_WIDTH := SCREEN_WIDTH self; SCREEN_HEIGHT := SCREEN_HEIGHT self;
     ROWS := ROWS self; COLS := COLS self; board := b;
     CONFIG := CONFIG self |}.

Definition set_CONFIG (self : GameOfLife) (cfg : gmap string pattern)
  : GameOfLife :=
  {| SCREEN_WIDTH := SCREEN_WIDTH self; SCREEN_HEIGHT := SCREEN_HEIGHT self;
     ROWS := ROWS self; COLS := COLS self; board := board self;
     CONFIG := cfg |}.

Definition set_screen (self : GameOfLife) (w : World) : GameOfLife :=
  let '(h, wd) := maxyx w in
  {| SCREEN_WIDTH := wd; SCREEN_HEIGHT := h;
     ROWS := h - TOP_MARGIN - BOTTOM_MARGIN - 1;
     COLS := wd - LEFT_MARGIN - RIGHT_MARGIN - 1;
     board := board self; CONFIG := CONFIG self |}.

Definition load_config (self : GameOfLife) (w : World) : result GameOfLife :=
  match config_json w with
  | Some f => Ok (set_CONFIG self f)
  | None => Raise OSError
  end.

Definition save_config (self : GameOfLife) (w : World) : GameOfLife * World :=
  let self := set_CONFIG self (<["Saved" := tolist (board self)]> (CONFIG self)) in
  (self, set_config_json w (CONFIG self)).

Definition populate_board (self : GameOfLife) (w : World) (option : string)
  : result (GameOfLife * World) :=
  self ← load_config self w;
  b ← np_zeros (ROWS self) (COLS self);
  let self := set_board self b in
  if String.eqb option "Random" then
    let '(b, w) := randint 0 2 (Z.to_nat (ROWS self)) (Z.to_nat (COLS self)) w in
    Ok (set_board self b, w)
  else
    p ← config_get (CONFIG self) option;
    row0 ← list_first p;
    v ← asarray p;
    b ← setitem_slice (board self) (length p) (length row0) v;
    Ok (set_board self b, w).

(** The body of the inner loop of [count_alive_neighbours]; the loop
    variable [x] of the outer loop is overwritten by its wrapped value, which
    the next iteration of the inner loop reads. *)
Definition count_inner (self : GameOfLife) (st : Z * Z) (y : Z)
  : result (Z * Z) :=
  let '(x, alive_neighbours) := st in
  x ← py_mod (x + ROWS self) (ROWS self);
  y ← py_mod (y + COLS self) (COLS self);
  v ← getitem (board self) x y;
  Ok (x, add64 alive_neighbours v).

Definition count_outer (self : GameOfLife) (c : Z) (alive_neighbours : Z)
  (x : Z) : result Z :=
  st ← foldM (count_inner self) (x, alive_neighbours) (py_range (c - 1) (c + 2));
  Ok (snd st).

Definition count_alive_neighbours (self : GameOfLife) (r c : Z) : result Z :=
  alive_neighbours ← foldM (count_outer self c) 0 (py_range (r - 1) (r + 2));
  v ← getitem (board self) r c;
  Ok (sub64 alive_neighbours v).

(** The body of the loop of [update_board]. *)
Definition update_cell (self : GameOfLife) (new_board : ndarray)
  (rc : nat * nat) : result ndarray :=
  let r := Z.of_nat (fst rc) in
  let c := Z.of_nat (snd rc) in
  alive_neighbours ← count_alive_neighbours self r c;
  v ← getitem (board self) r c;
  if v =? 1 then
    if (alive_neighbours <=? 3) && (alive_neighbours >=? 2)
    then setitem new_board r c 1
    else Ok new_board
  else
    v ← getitem (board self) r c;
    if v =? 0 then
      if alive_neighbours =? 3
      then setitem new_board r c 1
      else Ok new_board
    else Ok new_board.

Definition update_board (self : GameOfLife) : result GameOfLife :=
  let new_board := zeros (nrows (board self)) (ncols (board self)) in
  new_board ← foldM (update_cell self) new_board (ndindex (shape (board self)));
  Ok (set_board self new_board).

(** ** Drawing *)

Definition FILLED : string := "█".
Definition BLANK : string := " ".

Definition draw_cell (self : GameOfLife) (w : World) (rc : nat * nat)
  : result World :=
  let r := Z.of_nat (fst rc) in
  let c := Z.of_nat (snd rc) in
  v ← getitem (board self) r c;
  if v =? 1
  then Ok (call w (Addstr (r + TOP_MARGIN + 1) (c + LEFT_MARGIN + 1) FILLED))
  else Ok (call w (Addstr (r + TOP_MARGIN + 1) (c + LEFT_MARGIN + 1) BLANK)).

Definition draw_board (self : GameOfLife) (w : World) : result World :=
  w ← foldM (draw_cell self) w (ndindex (shape (board self)));
  Ok (call w Refresh).

Definition print_box (self : GameOfLife) (w : World) : World :=
  let w := call w (Rectangle TOP_MARGIN LEFT_MARGIN
                             (TOP_MARGIN + ROWS self + 1)
                             (LEFT_MARGIN + COLS self + 1)) in
  call w Refresh.

(** [str(i)] for a digit [i]. *)
Definition str_digit (i : nat) : string :=
  String (Ascii.ascii_of_nat (48 + i)) EmptyString.

Definition print_side_menu (self : GameOfLife) (w : World) : result World :=
  let w := call w (Addstr 4 (SCREEN_WIDTH self - 11) "Options: ") in
  w ← foldM (fun w (i : nat) =>
               name ← dict_get OPTIONS (ord_0 + Z.of_nat i);
               Ok (call w (Addstr (6 + Z.of_nat i) (SCREEN_WIDTH self - 11)
                                  (str_digit i +:+ ": " +:+ name))))
            w (seq 0 10);
  name ← dict_get OPTIONS ord_r;
  Ok (call w (Addstr 16 (SCREEN_WIDTH self - 11) ("r: " +:+ name))).

Definition print_down_menu (self : GameOfLife) (w : World) : World :=
  let w := call w (Addstr (SCREEN_HEIGHT self - 1) 3 "q: quit") in
  let w := call w (Addstr (SCREEN_HEIGHT self - 1) (COLS self / 2 - 6)
                          "Enter: Next state") in
  call w (Addstr (SCREEN_HEIGHT self - 1) (COLS self - 5) "s: Save").

Definition print_menu (self : GameOfLife) (w : World) : result World :=
  w ← print_side_menu self w;
  Ok (print_down_menu self w).

(** The banner ends with one emoji: [len(ascii_banner)] counts it once. *)
Definition ascii_banner : string := "GAME OF LIFE 😀".
Definition len_ascii_banner : Z := 14.

Definition print_title (self : GameOfLife) (w : World) : World :=
  call w (Addstr 1 (SCREEN_WIDTH self / 2 - len_ascii_banner / 2) ascii_banner).

(** ** The interaction loop *)

(** Where the session stands once the given key events are consumed:
    blocked in [stdscr.getch()] or returned from the loop. *)
Inductive session : Type :=
  | AwaitingKey
  | Finished.

Definition is_enter (key : Z) : bool :=
  (key =? KEY_ENTER) || existsb (Z.eqb key) [10; 13].

Definition is_option_key (key : Z) : bool :=
  existsb (Z.eqb key) (map (fun x : nat => ord_0 + Z.of_nat x) (seq 0 10))
  || (key =? ord_r).

Fixpoint game_loop (self : GameOfLife) (w : World) (keys : list Z)
  : result (session * GameOfLife * World) :=
  match keys with
  | [] => Ok (AwaitingKey, self, w)
  | key :: keys =>
      if is_enter key then
        self ← update_board self;
        w ← draw_board self w;
        game_loop self w keys
      else if (key =? ord_s) || (key =? ord_S) then
        let '(self, w) := save_config self w in
        game_loop self w keys
      else if is_option_key key then
        option ← dict_get OPTIONS key;
        sw ← populate_board self w option;
        w ← draw_board (fst sw) (snd sw);
        game_loop (fst sw) w keys
      else if (key =? ord_q) || (key =? ord_Q) then
        Ok (Finished, self, w)
      else game_loop self w keys
  end.

Definition game_controller (self : GameOfLife) (w : World) (keys : list Z)
  : result (session * GameOfLife * World) :=
  let self := set_screen self w in
  let w := call w (CursSet 0) in
  let w := print_title self w in
  let w := print_box self w in
  w ← print_menu self w;
  match keys with
  | [] => Ok (AwaitingKey, self, w)
  | key :: keys =>
      option ← dict_get OPTIONS key;
      sw ← populate_board self w option;
      w ← draw_board (fst sw) (snd sw);
      game_loop (fst sw) w keys
  end.

(** [curses.wrapper] hands the window to [game_controller]. *)
Definition init_game (self : GameOfLife) (w : World) (keys : list Z)
  : result (session * GameOfLife * World) :=
  game_controller self w keys.

(** ** Well-formed arrays and states *)

(** The rows of an array agree with its shape. *)
Definition wf_array (a : ndarray) : Prop :=
  length (data a) = nrows a /\ Forall (fun row => length row = ncols a) (data a).

(** The board has the shape [(ROWS, COLS)], as after [populate_board]. *)
Definition wf_game (self : GameOfLife) : Prop :=
  wf_array (board self)
  /\ ROWS self = Z.of_nat (nrows (board self))
  /\ COLS self = Z.of_nat (ncols (board self)).

(** Every cell is 0 or 1. *)
Definition binary_row (row : list Z) : Prop := Forall (fun v => v = 0 \/ v = 1) row.
Definition binary (a : ndarray) : Prop := Forall binary_row (data a).

(** The cell at an index within the shape. *)
Definition peek (a : ndarray) (i j : nat) : Z := default 0 (cell a i j).

(** The cell at a coordinate of the torus. *)
Definition torus (self : GameOfLife) (x y : Z) : Z :=
  peek (board self) (Z.to_nat (x mod ROWS self)) (Z.to_nat (y mod COLS self)).

(** The nine cells of the block around [(r, c)] on the torus, summed in the
    order of the two loops, and that sum without the centre. *)
Definition block (self : GameOfLife) (r c : Z) : list Z :=
  x ← [r - 1; r; r + 1]; y ← [c - 1; c; c + 1]; [torus self x y].

Definition block_sum (self : GameOfLife) (r c : Z) : Z :=
  fold_left add64 (block self r c) 0.

Definition neighbour_sum (self : GameOfLife) (r c : Z) : Z :=
  sub64 (block_sum self r c) (torus self r c).

(** The eight neighbours of a cell, and the number of them that are alive:
    the neighbour count as the specification words it. *)
Definition neighbour_offsets : list (Z * Z) :=
  [(-1, -1); (-1, 0); (-1, 1); (0, -1); (0, 1); (1, -1); (1, 0); (1, 1)].

Definition alive_among_neighbours (self : GameOfLife) (r c : Z) : Z :=
  Z.of_nat (length (List.filter
                      (fun d => torus self (r + fst d) (c + snd d) =? 1)
                      neighbour_offsets)).

(** ** Sample states *)

(** A game whose board has the given rows, on a screen that leaves it that
    room. *)
Definition game_of (r c : nat) (cells : list (list Z)) : GameOfLife :=
  {| SCREEN_WIDTH := Z.of_nat c + LEFT_MARGIN + RIGHT_MARGIN + 1;
     SCREEN_HEIGHT := Z.of_nat r + TOP_MARGIN + BOTTOM_MARGIN + 1;
     ROWS := Z.of_nat r; COLS := Z.of_nat c;
     board := {| nrows := r; ncols := c; data := cells |};
     CONFIG := ∅ |}.

(** Boards with one alive cell, at the origin. *)
Definition single_2x2 : GameOfLife := game_of 2 2 [[1; 0]; [0; 0]].
Definition single_3x3 : GameOfLife :=
  game_of 3 3 [[1; 0; 0]; [0; 0; 0]; [0; 0; 0]].
Definition single_4x5 : GameOfLife :=
  game_of 4 5 [[1; 0; 0; 0; 0]; [0; 0; 0; 0; 0]; [0; 0; 0; 0; 0];
               [0; 0; 0; 0; 0]].

#[global] Instance wf_array_dec (a : ndarray) : Decision (wf_array a).
Proof. unfold wf_array. apply _. Defined.

#[global] Instance wf_game_dec (self : GameOfLife) : Decision (wf_game self).
Proof. unfold wf_game. apply _. Defined.

#[global] Instance binary_dec (a : ndarray) : Decision (binary a).
Proof. unfold binary, binary_row. apply _. Defined.

(** The array [a] with the cell at [(i, j)] set to [v]. *)
Definition put (a : ndarray) (i j : nat) (v : Z) : ndarray :=
  {| nrows := nrows a; ncols := ncols a;
     data := alter (fun row => <[j := v]> row) i (data a) |}.

(** The rule of the game, on the state [v] of a cell and the number [n] of
    its alive neighbours: the state of the cell in the next generation. *)
Definition next_state (v n : Z) : Z :=
  if v =? 1 then (if (n <=? 3) && (n >=? 2) then 1 else 0)
  else if v =? 0 then (if n =? 3 then 1 else 0)
  else 0.

(** What the decision on the cell [(i, j)] writes into the new board. *)
Definition decided (self : GameOfLife) (nb : ndarray) (i j : nat) : ndarray :=
  if next_state (peek (board self) i j)
                (neighbour_sum self (Z.of_nat i) (Z.of_nat j)) =? 1
  then put nb i j 1 else nb.

(** A vertical blinker in the middle of a 5x5 board, and an empty board. *)
Definition blinker_5x5 : GameOfLife :=
  game_of 5 5 [[0; 0; 0; 0; 0]; [0; 0; 1; 0; 0]; [0; 0; 1; 0; 0];
               [0; 0; 1; 0; 0]; [0; 0; 0; 0; 0]].

Definition all_dead (r c : nat) : GameOfLife :=
  game_of r c (data (zeros r c)).

(** A world with the given configuration file and an 80x24 terminal. *)
Definition world_of (f : option (gmap string pattern)) : World :=
  {| config_json := f; entropy := fun n => Z.of_nat (n * n + n / 3);
     drawn := 0; maxyx := (24, 80); stdscr := [] |}.

(** Three templates of a configuration file. *)
Definition sample_config : gmap string pattern :=
  {[ "Block" := [[1; 1]; [1; 1]];
     "Blinker" := [[1; 1; 1]];
     "Glider" := [[0; 1; 0]; [0; 0; 1]; [1; 1; 1]] ]}.

(** The shape and the cells of a template, and the templates that are
    arrays: every row has the length of the first one. *)
Definition pattern_rows (p : pattern) : nat := length p.
Definition pattern_cols (p : pattern) : nat := length (default [] (head p)).
Definition pattern_cell (p : pattern) (i j : nat) : Z :=
  default 0 (row ← p !! i; row !! j).
Definition rectangular (p : pattern) : Prop :=
  Forall (fun row => length row = pattern_cols p) p.

#[global] Instance rectangular_dec (p : pattern) : Decision (rectangular p).
Proof. unfold rectangular. apply _. Defined.

Definition glider : pattern := [[0; 1; 0]; [0; 0; 1]; [1; 1; 1]].
Definition sample_world : World := world_of (Some sample_config).

#[global] Instance binary_row_dec (row : list Z) : Decision (binary_row row).
Proof. unfold binary_row. apply _. Defined.

(** The keys that [game_loop] acts on. *)
Definition recognized (key : Z) : bool :=
  is_enter key || (key =? ord_s) || (key =? ord_S) || is_option_key key
  || (key =? ord_q) || (key =? ord_Q).

(** The key [x], which no command is bound to. *)
Definition ord_x : Z := 120.

(** ** More sample states, and the vocabulary of the further properties *)

(** The 5x5 board seeded with the glider of [sample_config]. *)
Definition glider_5x5 : GameOfLife :=
  set_CONFIG
    (game_of 5 5 [[0; 1; 0; 0; 0]; [0; 0; 1; 0; 0]; [1; 1; 1; 0; 0];
                  [0; 0; 0; 0; 0]; [0; 0; 0; 0; 0]])
    sample_config.

(** A configuration file with an empty template, and worlds without a
    file and with that file. *)
Definition no_file_world : World := world_of None.
Definition empty_template_world : World :=
  world_of (Some (<["Empty" := []]> sample_config)).

(** A terminal of five lines: too small for the margins. *)
Definition tiny_world : World :=
  {| config_json := Some sample_config; entropy := fun n => Z.of_nat n;
     drawn := 0; maxyx := (5, 80); stdscr := [] |}.

(** The world after the given calls on the window, the latest first. *)
Definition calls_on (w : World) (cs : list curses_call) : World :=
  {| config_json := config_json w; entropy := entropy w; drawn := drawn w;
     maxyx := maxyx w; stdscr := (cs ++ stdscr w)%list |}.

(** The call that draws the cell at an index. *)
Definition cell_call (self : GameOfLife) (rc : nat * nat) : curses_call :=
  Addstr (Z.of_nat (fst rc) + TOP_MARGIN + 1)
         (Z.of_nat (snd rc) + LEFT_MARGIN + 1)
         (if peek (board self) (fst rc) (snd rc) =? 1 then FILLED else BLANK).



(** Every template of a configuration has cells 0 or 1. *)
Definition templates_binary (f : gmap string pattern) : Prop :=
  map_Forall (fun _ p => Forall binary_row p) f.

#[global] Instance templates_binary_dec (f : gmap string pattern) :
  Decision (templates_binary f).
Proof. unfold templates_binary. apply _. Defined.

(** What follows a run of the loop: the next keys are read if the loop
    is still waiting, and never if it was left. *)
Definition and_then (r : session * GameOfLife * World) (keys : list Z)
  : result (session * GameOfLife * World) :=
  match r with
  | (AwaitingKey, self, w) => game_loop self w keys
  | (Finished, self, w) => Ok (Finished, self, w)
  end.

(** A 6x7 board with a block at the top-left corner, and a 1x1 board. *)
Definition block_6x7 : GameOfLife :=
  game_of 6 7 [[1; 1; 0; 0; 0; 0; 0]; [1; 1; 0; 0; 0; 0; 0];
               [0; 0; 0; 0; 0; 0; 0]; [0; 0; 0; 0; 0; 0; 0];
               [0; 0; 0; 0; 0; 0; 0]; [0; 0; 0; 0; 0; 0; 0]].
Definition alone_1x1 : GameOfLife := game_of 1 1 [[1]].

(** The blinker of [blinker_5x5] with one more alive cell, in a corner. *)
Definition blinker_and_corner_5x5 : GameOfLife :=
  game_of 5 5 [[1; 0; 0; 0; 0]; [0; 0; 1; 0; 0]; [0; 0; 1; 0; 0];
               [0; 0; 1; 0; 0]; [0; 0; 0; 0; 0]].

(** A 3x4 board whose cells are all alive. *)
Definition all_alive_3x4 : GameOfLife :=
  game_of 3 4 [[1; 1; 1; 1]; [1; 1; 1; 1]; [1; 1; 1; 1]].

(** * Properties *)

(** ** Arithmetic *)

Lemma wrap64_small (z : Z) : - 2 ^ 63 <= z < 2 ^ 63 -> wrap64 z = z.
Proof.
  intros Hz. unfold wrap64.
  rewrite Z.mod_small; lia.
Qed.

Lemma py_range_3 (r : Z) : py_range (r - 1) (r + 2) = [r - 1; r; r + 1].
Proof.
  unfold py_range.
  replace (r + 2 - (r - 1)) with 3 by lia.
  change (Z.to_nat 3) with 3%nat.
  cbn. f_equal; [lia |]. f_equal; [lia |]. f_equal; lia.
Qed.

Lemma py_mod_ok (a b : Z) : b <> 0 -> py_mod a b = Ok (a mod b).
Proof.
  intros Hb. unfold py_mod.
  destruct (Z.eqb_spec b 0); [contradiction | reflexivity].
Qed.

Lemma wrap_mod (x n : Z) : 0 < n -> (x + n) mod n = x mod n.
Proof.
  intros Hn. rewrite <- (Z.mul_1_l n) at 1.
  apply Z.mod_add. lia.
Qed.

(** ** Indexing *)

Lemma norm_index_mod (n : nat) (i : Z) :
  - Z.of_nat n <= i < Z.of_nat n ->
  norm_index n i = Ok (Z.to_nat (i mod Z.of_nat n)).
Proof.
  intros Hi. unfold norm_index.
  destruct (Z.leb_spec 0 i); destruct (Z.ltb_spec i (Z.of_nat n)); cbn; try lia.
  - rewrite Z.mod_small by lia. reflexivity.
  - destruct (Z.leb_spec (- Z.of_nat n) i); destruct (Z.ltb_spec i 0);
      cbn; try lia.
    do 2 f_equal.
    apply Z.mod_unique with (q := -1); lia.
Qed.

Lemma norm_index_out (n : nat) (i : Z) :
  i < - Z.of_nat n \/ Z.of_nat n <= i -> norm_index n i = Raise IndexError.
Proof.
  intros Hi. unfold norm_index.
  destruct (Z.leb_spec 0 i); destruct (Z.ltb_spec i (Z.of_nat n)); cbn; try lia;
    destruct (Z.leb_spec (- Z.of_nat n) i); destruct (Z.ltb_spec i 0);
      cbn; try lia; reflexivity.
Qed.

Lemma cell_peek (a : ndarray) (i j : nat) :
  wf_array a -> (i < nrows a)%nat -> (j < ncols a)%nat ->
  cell a i j = Some (peek a i j).
Proof.
  intros [Hlen Hrows] Hi Hj. unfold peek, cell.
  destruct (lookup_lt_is_Some_2 (data a) i) as [row Hrow]; [lia |].
  rewrite Hrow. cbn.
  assert (length row = ncols a) as Hrl.
  { rewrite Forall_lookup in Hrows. eauto. }
  destruct (lookup_lt_is_Some_2 row j) as [v Hv]; [lia |].
  rewrite Hv. reflexivity.
Qed.

Lemma mod_to_nat_lt (x : Z) (n : nat) :
  (0 < n)%nat -> (Z.to_nat (x mod Z.of_nat n) < n)%nat.
Proof.
  intros Hn. pose proof (Z.mod_pos_bound x (Z.of_nat n)). lia.
Qed.

(** Reading [a[x, y]] with both indices in [-n, n) reads the cell at the
    indices reduced modulo the shape. *)
Lemma getitem_mod (a : ndarray) (x y : Z) :
  wf_array a ->
  - Z.of_nat (nrows a) <= x < Z.of_nat (nrows a) ->
  - Z.of_nat (ncols a) <= y < Z.of_nat (ncols a) ->
  getitem a x y
  = Ok (peek a (Z.to_nat (x mod Z.of_nat (nrows a)))
               (Z.to_nat (y mod Z.of_nat (ncols a)))).
Proof.
  intros Hwf Hx Hy. unfold getitem.
  rewrite (norm_index_mod _ _ Hx), (norm_index_mod _ _ Hy). cbn.
  rewrite cell_peek; auto using mod_to_nat_lt with lia.
  all: apply mod_to_nat_lt; lia.
Qed.

Lemma getitem_nat (a : ndarray) (i j : nat) :
  wf_array a -> (i < nrows a)%nat -> (j < ncols a)%nat ->
  getitem a (Z.of_nat i) (Z.of_nat j) = Ok (peek a i j).
Proof.
  intros Hwf Hi Hj.
  rewrite getitem_mod by (auto; lia).
  rewrite !Z.mod_small, !Nat2Z.id by lia. reflexivity.
Qed.

Lemma norm_index_raise (n : nat) (i : Z) (e : exn) :
  norm_index n i = Raise e -> e = IndexError.
Proof.
  unfold norm_index. repeat case_match; congruence.
Qed.

Lemma getitem_in_range (a : ndarray) (x y : Z) :
  wf_array a ->
  0 <= x < Z.of_nat (nrows a) -> 0 <= y < Z.of_nat (ncols a) ->
  getitem a x y = Ok (peek a (Z.to_nat x) (Z.to_nat y)).
Proof.
  intros Hwf Hx Hy.
  rewrite getitem_mod by (auto; lia).
  rewrite !Z.mod_small by lia. reflexivity.
Qed.

Lemma getitem_out (a : ndarray) (x y : Z) :
  (x < - Z.of_nat (nrows a) \/ Z.of_nat (nrows a) <= x)
  \/ (y < - Z.of_nat (ncols a) \/ Z.of_nat (ncols a) <= y) ->
  getitem a x y = Raise IndexError.
Proof.
  intros [Hx | Hy]; unfold getitem.
  - rewrite (norm_index_out _ _ Hx). reflexivity.
  - destruct (norm_index (nrows a) x) eqn:E; cbn.
    + rewrite (norm_index_out _ _ Hy). reflexivity.
    + apply norm_index_raise in E. subst. reflexivity.
Qed.

(** ** The neighbour count *)

Lemma block_sum_eq (self : GameOfLife) (r c : Z) :
  block_sum self r c
  = add64 (add64 (add64 (add64 (add64 (add64 (add64 (add64 (add64 0
      (torus self (r - 1) (c - 1))) (torus self (r - 1) c))
      (torus self (r - 1) (c + 1)))
      (torus self r (c - 1))) (torus self r c)) (torus self r (c + 1)))
      (torus self (r + 1) (c - 1))) (torus self (r + 1) c))
      (torus self (r + 1) (c + 1)).
Proof.
  unfold block_sum, block.
  cbn -[add64 torus Z.add Z.sub]. reflexivity.
Qed.

Section Count.
Variable self : GameOfLife.
Hypothesis Hwf : wf_game self.
Hypothesis Hrows : 0 < ROWS self.
Hypothesis Hcols : 0 < COLS self.

Lemma torus_mod_l (x y : Z) : torus self (x mod ROWS self) y = torus self x y.
Proof. unfold torus. rewrite Z.mod_mod by lia. reflexivity. Qed.

Lemma torus_mod_r (x y : Z) : torus self x (y mod COLS self) = torus self x y.
Proof. unfold torus. rewrite Z.mod_mod by lia. reflexivity. Qed.

Lemma getitem_torus (x y : Z) :
  - ROWS self <= x < ROWS self -> - COLS self <= y < COLS self ->
  getitem (board self) x y = Ok (torus self x y).
Proof.
  destruct Hwf as (Ha & HR & HC). intros Hx Hy.
  rewrite getitem_mod by (auto; lia).
  unfold torus. rewrite HR, HC. reflexivity.
Qed.

Lemma count_inner_ok (x acc y : Z) :
  count_inner self (x, acc) y
  = Ok (x mod ROWS self, add64 acc (torus self x y)).
Proof.
  unfold count_inner.
  rewrite !py_mod_ok by lia. cbn.
  rewrite !wrap_mod by lia.
  pose proof (Z.mod_pos_bound x (ROWS self) Hrows).
  pose proof (Z.mod_pos_bound y (COLS self) Hcols).
  rewrite getitem_torus by lia. cbn.
  unfold torus. rewrite !Z.mod_mod by lia. reflexivity.
Qed.

Lemma count_outer_ok (c acc x : Z) :
  count_outer self c acc x
  = Ok (add64 (add64 (add64 acc (torus self x (c - 1))) (torus self x c))
              (torus self x (c + 1))).
Proof.
  unfold count_outer. rewrite py_range_3. cbn [foldM].
  rewrite count_inner_ok. cbn [mbind result_bind].
  rewrite count_inner_ok. cbn [mbind result_bind].
  rewrite count_inner_ok. cbn [mbind result_bind snd].
  rewrite !torus_mod_l. reflexivity.
Qed.

(** The two loops never raise on a non-empty board and add up the block;
    only the read of the centre is left. *)
Lemma count_unfold (r c : Z) :
  count_alive_neighbours self r c
  = v ← getitem (board self) r c; Ok (sub64 (block_sum self r c) v).
Proof.
  unfold count_alive_neighbours. rewrite py_range_3. cbn [foldM].
  rewrite count_outer_ok. cbn [mbind result_bind].
  rewrite count_outer_ok. cbn [mbind result_bind].
  rewrite count_outer_ok. cbn [mbind result_bind].
  rewrite block_sum_eq. reflexivity.
Qed.

Lemma count_in_range (r c : Z) :
  - ROWS self <= r < ROWS self -> - COLS self <= c < COLS self ->
  count_alive_neighbours self r c = Ok (neighbour_sum self r c).
Proof.
  intros Hr Hc. rewrite count_unfold, getitem_torus by lia.
  cbn [mbind result_bind]. unfold neighbour_sum. reflexivity.
Qed.

Lemma count_out_of_range (r c : Z) :
  (r < - ROWS self \/ ROWS self <= r) \/ (c < - COLS self \/ COLS self <= c) ->
  count_alive_neighbours self r c = Raise IndexError.
Proof.
  destruct Hwf as (Ha & HR & HC). intros Hrc.
  rewrite count_unfold, getitem_out by lia.
  cbn [mbind result_bind]. reflexivity.
Qed.

Lemma block_sum_mod (r c : Z) :
  block_sum self (r mod ROWS self) (c mod COLS self) = block_sum self r c.
Proof.
  rewrite !block_sum_eq. unfold torus.
  rewrite !Zminus_mod_idemp_l, !Z.add_mod_idemp_l, !Z.mod_mod by lia.
  reflexivity.
Qed.

Lemma neighbour_sum_mod (r c : Z) :
  neighbour_sum self (r mod ROWS self) (c mod COLS self)
  = neighbour_sum self r c.
Proof.
  unfold neighbour_sum. rewrite block_sum_mod.
  rewrite torus_mod_l, torus_mod_r. reflexivity.
Qed.
End Count.

(** ** Binary boards *)

Lemma peek_binary (a : ndarray) (i j : nat) :
  wf_array a -> binary a -> (i < nrows a)%nat -> (j < ncols a)%nat ->
  peek a i j = 0 \/ peek a i j = 1.
Proof.
  intros Hwf Hbin Hi Hj.
  pose proof (cell_peek a i j Hwf Hi Hj) as Hc.
  unfold cell in Hc.
  destruct (data a !! i) as [row |] eqn:Hrow; [| discriminate].
  cbn in Hc.
  unfold binary in Hbin. rewrite Forall_lookup in Hbin.
  specialize (Hbin i row Hrow).
  unfold binary_row in Hbin. rewrite Forall_lookup in Hbin.
  exact (Hbin j _ Hc).
Qed.

Lemma torus_binary (self : GameOfLife) (x y : Z) :
  wf_game self -> binary (board self) -> 0 < ROWS self -> 0 < COLS self ->
  torus self x y = 0 \/ torus self x y = 1.
Proof.
  intros (Ha & HR & HC) Hbin Hr Hc. unfold torus.
  apply peek_binary; auto.
  - pose proof (Z.mod_pos_bound x (ROWS self) Hr). lia.
  - pose proof (Z.mod_pos_bound y (COLS self) Hc). lia.
Qed.

Lemma add64_small (a b : Z) :
  0 <= a <= 8 -> 0 <= b <= 1 -> add64 a b = a + b.
Proof. intros Ha Hb. unfold add64. apply wrap64_small. lia. Qed.

Lemma sub64_small (a b : Z) :
  0 <= a <= 9 -> 0 <= b <= 1 -> sub64 a b = a - b.
Proof. intros Ha Hb. unfold sub64. apply wrap64_small. lia. Qed.

Ltac small64 :=
  repeat match goal with
         | |- context [add64 ?a ?b] => rewrite (add64_small a b) by lia
         | |- context [sub64 ?a ?b] => rewrite (sub64_small a b) by lia
         end.

(** On a binary board the loops compute the number of alive neighbours. *)
Lemma neighbour_sum_alive (self : GameOfLife) (r c : Z) :
  wf_game self -> binary (board self) -> 0 < ROWS self -> 0 < COLS self ->
  neighbour_sum self r c = alive_among_neighbours self r c
  /\ 0 <= neighbour_sum self r c <= 8.
Proof.
  intros Hwf Hbin Hr Hc.
  unfold neighbour_sum, alive_among_neighbours, neighbour_offsets.
  rewrite block_sum_eq.
  cbn [List.filter fst snd].
  change (r - 1) with (r + -1). change (c - 1) with (c + -1).
  rewrite !Z.add_0_r.
  pose proof (torus_binary self (r + -1) (c + -1) Hwf Hbin Hr Hc) as H1.
  pose proof (torus_binary self (r + -1) c Hwf Hbin Hr Hc) as H2.
  pose proof (torus_binary self (r + -1) (c + 1) Hwf Hbin Hr Hc) as H3.
  pose proof (torus_binary self r (c + -1) Hwf Hbin Hr Hc) as H4.
  pose proof (torus_binary self r c Hwf Hbin Hr Hc) as H5.
  pose proof (torus_binary self r (c + 1) Hwf Hbin Hr Hc) as H6.
  pose proof (torus_binary self (r + 1) (c + -1) Hwf Hbin Hr Hc) as H7.
  pose proof (torus_binary self (r + 1) c Hwf Hbin Hr Hc) as H8.
  pose proof (torus_binary self (r + 1) (c + 1) Hwf Hbin Hr Hc) as H9.
  generalize dependent (torus self (r + -1) (c + -1)).
  generalize dependent (torus self (r + -1) c).
  generalize dependent (torus self (r + -1) (c + 1)).
  generalize dependent (torus self r (c + -1)).
  generalize dependent (torus self r c).
  generalize dependent (torus self r (c + 1)).
  generalize dependent (torus self (r + 1) (c + -1)).
  generalize dependent (torus self (r + 1) c).
  generalize dependent (torus self (r + 1) (c + 1)).
  intros v9 H9 v8 H8 v7 H7 v6 H6 v5 H5 v4 H4 v3 H3 v2 H2 v1 H1.
  small64.
  assert (forall v, v = 0 \/ v = 1 -> forall (l : list (Z * Z)) d,
            Z.of_nat (length (if v =? 1 then d :: l else l))
            = v + Z.of_nat (length l)) as Hif.
  { intros v [-> | ->] l d.
    - change (0 =? 1) with false. cbn iota. lia.
    - change (1 =? 1) with true. cbn iota. rewrite length_cons. lia. }
  rewrite !Hif by assumption.
  cbn [length]. lia.
Qed.

(** ** The claims on [count_alive_neighbours] *)

(** C5: on every board of 0/1 cells and for every cell [(r, c)] within the
    board, [count_alive_neighbours] returns the number of alive cells among
    the eight neighbours of [(r, c)] on the torus (the 3x3 block without its
    centre), and that number lies between 0 and 8. *)
Theorem count_alive_neighbours_counts (self : GameOfLife) (r c : Z) :
  wf_game self -> binary (board self) ->
  0 <= r < ROWS self -> 0 <= c < COLS self ->
  count_alive_neighbours self r c = Ok (alive_among_neighbours self r c)
  /\ 0 <= alive_among_neighbours self r c <= 8.
Proof.
  intros Hwf Hbin Hr Hc.
  destruct (neighbour_sum_alive self r c Hwf Hbin) as [Heq Hbound]; [lia .. |].
  rewrite count_in_range by (auto; lia).
  rewrite <- Heq. auto.
Qed.

Lemma count_alive_neighbours_counts_witness :
  count_alive_neighbours single_4x5 3 4
  = Ok (alive_among_neighbours single_4x5 3 4)
  /\ 0 <= alive_among_neighbours single_4x5 3 4 <= 8.
Proof.
  apply (count_alive_neighbours_counts single_4x5 3 4).
  - compute_done.
  - compute_done.
  - cbn. lia.
  - cbn. lia.
Defined.

(** C3, as the code has it: on a non-empty board a row or column that is
    within the board or one step below it (-1) is accepted, and the result
    is the neighbour count of the cell at the coordinates reduced modulo
    the dimensions; a row equal to [ROWS] or a column equal to [COLS] is an
    [IndexError], raised by the read of the centre [self.board[r, c]]. *)
Theorem count_alive_neighbours_one_step_out (self : GameOfLife) (r c : Z) :
  wf_game self -> 0 < ROWS self -> 0 < COLS self ->
  (-1 <= r < ROWS self -> -1 <= c < COLS self ->
   count_alive_neighbours self r c
   = count_alive_neighbours self (r mod ROWS self) (c mod COLS self)
   /\ count_alive_neighbours self r c
      = Ok (neighbour_sum self (r mod ROWS self) (c mod COLS self)))
  /\ (r = ROWS self \/ c = COLS self ->
      count_alive_neighbours self r c = Raise IndexError).
Proof.
  intros Hwf HR HC. split.
  - intros Hr Hc.
    pose proof (Z.mod_pos_bound r (ROWS self) HR).
    pose proof (Z.mod_pos_bound c (COLS self) HC).
    rewrite !count_in_range by (auto; lia).
    rewrite !neighbour_sum_mod by (auto; lia). auto.
  - intros Hout. apply count_out_of_range; auto. lia.
Qed.

Lemma count_alive_neighbours_one_step_out_witness :
  (count_alive_neighbours single_3x3 (-1) (-1)
   = count_alive_neighbours single_3x3 (-1 mod 3) (-1 mod 3)
   /\ count_alive_neighbours single_3x3 (-1) (-1)
      = Ok (neighbour_sum single_3x3 (-1 mod 3) (-1 mod 3)))
  /\ count_alive_neighbours single_3x3 3 2 = Raise IndexError.
Proof.
  assert (wf_game single_3x3) as Hwf by compute_done.
  assert (0 < ROWS single_3x3) as HR by (cbn; lia).
  assert (0 < COLS single_3x3) as HC by (cbn; lia).
  split.
  - apply (count_alive_neighbours_one_step_out single_3x3 (-1) (-1) Hwf HR HC);
      cbn; lia.
  - apply (count_alive_neighbours_one_step_out single_3x3 3 2 Hwf HR HC).
    left. reflexivity.
Defined.

(** C3 as stated fails: a row equal to the number of rows is a bounds
    error, although the wrapped cell has a neighbour count. *)
Lemma count_alive_neighbours_row_equal_ROWS_raises :
  count_alive_neighbours single_3x3 3 2 = Raise IndexError
  /\ count_alive_neighbours single_3x3 (3 mod 3) (2 mod 3) = Ok 1.
Proof. split; vm_compute; reflexivity. Qed.

Lemma torus_congr (self : GameOfLife) (x x' y y' : Z) :
  x mod ROWS self = x' mod ROWS self -> y mod COLS self = y' mod COLS self ->
  torus self x y = torus self x' y'.
Proof. intros Hx Hy. unfold torus. rewrite Hx, Hy. reflexivity. Qed.

(** C6, as the code has it: on a board with at least three rows and three
    columns whose only alive cell is at (0, 0), the neighbour count is 1 at
    (ROWS-1, COLS-1), at (ROWS-1, 0) and at (0, COLS-1). *)
Theorem single_alive_cell_wraps (self : GameOfLife) :
  wf_game self -> 3 <= ROWS self -> 3 <= COLS self ->
  getitem (board self) 0 0 = Ok 1 ->
  (forall r c, 0 <= r < ROWS self -> 0 <= c < COLS self -> (r, c) <> (0, 0) ->
               getitem (board self) r c = Ok 0) ->
  count_alive_neighbours self (ROWS self - 1) (COLS self - 1) = Ok 1
  /\ count_alive_neighbours self (ROWS self - 1) 0 = Ok 1
  /\ count_alive_neighbours self 0 (COLS self - 1) = Ok 1.
Proof.
  intros Hwf HR HC Horigin Hdead.
  assert (forall x y, 0 <= x < ROWS self -> 0 <= y < COLS self ->
            torus self x y = if (x =? 0) && (y =? 0) then 1 else 0) as Ht.
  { intros x y Hx Hy.
    assert (Ok (torus self x y) = getitem (board self) x y) as Hg
      by (symmetry; apply getitem_torus; auto; lia).
    destruct (Z.eqb_spec x 0) as [-> | Hx0];
      [destruct (Z.eqb_spec y 0) as [-> | Hy0] |]; cbn [andb].
    - rewrite Horigin in Hg. congruence.
    - rewrite Hdead in Hg by (auto; congruence). congruence.
    - rewrite Hdead in Hg by (auto; congruence). congruence. }
  assert (forall y, torus self (ROWS self - 1 + 1) y = torus self 0 y) as Eup.
  { intros y. apply torus_congr; [| reflexivity].
    replace (ROWS self - 1 + 1) with (ROWS self) by lia.
    rewrite Z_mod_same_full, Z.mod_0_l by lia. reflexivity. }
  assert (forall x, torus self x (COLS self - 1 + 1) = torus self x 0) as Eright.
  { intros x. apply torus_congr; [reflexivity |].
    replace (COLS self - 1 + 1) with (COLS self) by lia.
    rewrite Z_mod_same_full, Z.mod_0_l by lia. reflexivity. }
  assert (forall y, torus self (0 - 1) y = torus self (ROWS self - 1) y) as Edown.
  { intros y. apply torus_congr; [| reflexivity].
    rewrite <- (wrap_mod (0 - 1)) by lia. f_equal. lia. }
  assert (forall x, torus self x (0 - 1) = torus self x (COLS self - 1)) as Eleft.
  { intros x. apply torus_congr; [reflexivity |].
    rewrite <- (wrap_mod (0 - 1)) by lia. f_equal. lia. }
  rewrite !count_in_range by (auto; lia).
  unfold neighbour_sum. rewrite !block_sum_eq.
  rewrite !Eup, !Eright, !Edown, !Eleft.
  rewrite !Ht by lia.
  repeat match goal with
         | |- context [?a =? 0] => destruct (Z.eqb_spec a 0); try lia
         end.
  cbn [andb]. vm_compute. auto.
Qed.

Lemma single_alive_cell_wraps_witness :
  count_alive_neighbours single_4x5 (4 - 1) (5 - 1) = Ok 1
  /\ count_alive_neighbours single_4x5 (4 - 1) 0 = Ok 1
  /\ count_alive_neighbours single_4x5 0 (5 - 1) = Ok 1.
Proof.
  apply (single_alive_cell_wraps single_4x5).
  - compute_done.
  - cbn. lia.
  - cbn. lia.
  - reflexivity.
  - cbn [single_4x5 game_of ROWS COLS board]. intros r c Hr Hc Hne.
    assert (r = 0 \/ r = 1 \/ r = 2 \/ r = 3) as Hrs by lia.
    assert (c = 0 \/ c = 1 \/ c = 2 \/ c = 3 \/ c = 4) as Hcs by lia.
    destruct Hrs as [-> | [-> | [-> | ->]]];
      destruct Hcs as [-> | [-> | [-> | [-> | ->]]]];
      try reflexivity.
    contradiction Hne. reflexivity.
Defined.

(** C6 as stated fails on a board with two rows or two columns: the alive
    cell is met twice along such an axis. *)
Lemma single_alive_cell_counted_twice :
  count_alive_neighbours single_2x2 (2 - 1) (2 - 1) = Ok 4
  /\ count_alive_neighbours single_2x2 (2 - 1) 0 = Ok 2
  /\ count_alive_neighbours single_2x2 0 (2 - 1) = Ok 2.
Proof. repeat split; vm_compute; reflexivity. Qed.

(** ** Arrays updated by index *)

Lemma setitem_nat (a : ndarray) (i j : nat) (v : Z) :
  (i < nrows a)%nat -> (j < ncols a)%nat ->
  setitem a (Z.of_nat i) (Z.of_nat j) v = Ok (put a i j v).
Proof.
  intros Hi Hj. unfold setitem.
  rewrite !norm_index_mod by lia.
  rewrite !Z.mod_small, !Nat2Z.id by lia. reflexivity.
Qed.

Lemma wf_put (a : ndarray) (i j : nat) (v : Z) :
  wf_array a -> wf_array (put a i j v).
Proof.
  intros [Hlen Hrows]. split; cbn.
  - rewrite length_alter. exact Hlen.
  - apply Forall_alter; [exact Hrows |].
    intros row _ Hrow. rewrite length_insert. exact Hrow.
Qed.

Lemma peek_put (a : ndarray) (i j i' j' : nat) (v : Z) :
  wf_array a -> (i < nrows a)%nat -> (j < ncols a)%nat ->
  peek (put a i j v) i' j'
  = if bool_decide (i = i' /\ j = j') then v else peek a i' j'.
Proof.
  intros [Hlen Hrows] Hi Hj. unfold peek, cell, put. cbn [data].
  destruct (decide (i = i')) as [<- | Hne].
  - rewrite list_lookup_alter_eq.
    destruct (lookup_lt_is_Some_2 (data a) i) as [row Hrow]; [lia |].
    rewrite Hrow. cbn.
    assert (length row = ncols a) as Hrl.
    { rewrite Forall_lookup in Hrows. eauto. }
    destruct (decide (j = j')) as [<- | Hnej].
    + rewrite list_lookup_insert_eq by lia.
      rewrite bool_decide_eq_true_2 by auto. reflexivity.
    + rewrite list_lookup_insert_ne by auto.
      rewrite bool_decide_eq_false_2 by tauto. reflexivity.
  - rewrite list_lookup_alter_ne by auto.
    rewrite bool_decide_eq_false_2 by tauto. reflexivity.
Qed.

Lemma wf_zeros (r c : nat) : wf_array (zeros r c).
Proof.
  split; cbn.
  - apply length_replicate.
  - apply Forall_replicate. apply length_replicate.
Qed.

Lemma peek_zeros (r c i j : nat) : peek (zeros r c) i j = 0.
Proof.
  unfold peek, cell, zeros. cbn [data].
  destruct (replicate r (replicate c 0) !! i) as [row |] eqn:Hrow; [| reflexivity].
  apply lookup_replicate in Hrow as [-> _]. cbn.
  destruct (replicate c 0 !! j) as [v |] eqn:Hv; [| reflexivity].
  apply lookup_replicate in Hv as [-> _]. reflexivity.
Qed.

(** Two well-formed arrays of one shape with the same cells are equal. *)
Lemma array_ext (a b : ndarray) :
  wf_array a -> wf_array b -> nrows a = nrows b -> ncols a = ncols b ->
  (forall i j, (i < nrows a)%nat -> (j < ncols a)%nat -> peek a i j = peek b i j) ->
  a = b.
Proof.
  destruct a as [ra ca da], b as [rb cb db]. cbn.
  intros [Hla Hra] [Hlb Hrb] -> -> Hcells. cbn in *.
  f_equal. apply list_eq. intros i.
  destruct (decide (i < rb)%nat) as [Hi | Hi].
  - destruct (lookup_lt_is_Some_2 da i) as [rowa Ha]; [lia |].
    destruct (lookup_lt_is_Some_2 db i) as [rowb Hb]; [lia |].
    rewrite Ha, Hb. f_equal.
    assert (length rowa = cb) as Hlra by (rewrite Forall_lookup in Hra; eauto).
    assert (length rowb = cb) as Hlrb by (rewrite Forall_lookup in Hrb; eauto).
    apply list_eq. intros j.
    destruct (decide (j < cb)%nat) as [Hj | Hj].
    + specialize (Hcells i j Hi Hj). unfold peek, cell in Hcells.
      cbn in Hcells. rewrite Ha, Hb in Hcells. cbn in Hcells.
      destruct (lookup_lt_is_Some_2 rowa j) as [va Hva]; [lia |].
      destruct (lookup_lt_is_Some_2 rowb j) as [vb Hvb]; [lia |].
      rewrite Hva, Hvb in *. cbn in Hcells. congruence.
    + rewrite !lookup_ge_None_2 by lia. reflexivity.
  - rewrite !lookup_ge_None_2 by lia. reflexivity.
Qed.

Lemma binary_of_peek (a : ndarray) :
  wf_array a ->
  (forall i j, (i < nrows a)%nat -> (j < ncols a)%nat ->
               peek a i j = 0 \/ peek a i j = 1) ->
  binary a.
Proof.
  intros Hwf Hcells. pose proof Hwf as [Hlen Hrows].
  unfold binary, binary_row. apply Forall_lookup. intros i row Hrow.
  apply Forall_lookup. intros j v Hv.
  assert (i < nrows a)%nat as Hi by (apply lookup_lt_Some in Hrow; lia).
  assert (j < ncols a)%nat as Hj.
  { rewrite Forall_lookup in Hrows. specialize (Hrows i row Hrow).
    apply lookup_lt_Some in Hv. lia. }
  specialize (Hcells i j Hi Hj).
  unfold peek, cell in Hcells. rewrite Hrow in Hcells. cbn in Hcells.
  rewrite Hv in Hcells. exact Hcells.
Qed.

Lemma elem_of_ndindex (r c i j : nat) :
  (i, j) ∈ ndindex (r, c) <-> (i < r)%nat /\ (j < c)%nat.
Proof.
  unfold ndindex. cbn [fst snd]. rewrite list_elem_of_bind. split.
  - intros (i' & Hin & Hi'). apply list_elem_of_bind in Hin as (j' & Hin & Hj').
    apply list_elem_of_singleton in Hin. inversion Hin; subst.
    apply elem_of_seq in Hi'. apply elem_of_seq in Hj'. lia.
  - intros [Hi Hj]. exists i. split; [| apply elem_of_seq; lia].
    apply list_elem_of_bind. exists j. split; [| apply elem_of_seq; lia].
    apply list_elem_of_singleton. reflexivity.
Qed.

(** ** One generation *)

Lemma next_state_binary (v n : Z) : next_state v n = 0 \/ next_state v n = 1.
Proof. unfold next_state. repeat case_match; auto. Qed.

Section Update.
Variable self : GameOfLife.
Hypothesis Hwf : wf_game self.

Lemma update_cell_ok (nb : ndarray) (i j : nat) :
  nrows nb = nrows (board self) -> ncols nb = ncols (board self) ->
  (i < nrows (board self))%nat -> (j < ncols (board self))%nat ->
  update_cell self nb (i, j) = Ok (decided self nb i j).
Proof.
  destruct Hwf as (Ha & HR & HC). intros Hnr Hnc Hi Hj.
  unfold update_cell, decided, next_state. cbn [fst snd].
  rewrite count_in_range by (auto; lia).
  rewrite getitem_nat by auto. cbn [mbind result_bind].
  destruct (peek (board self) i j =? 1).
  - destruct (_ && _); [| reflexivity].
    change (1 =? 1) with true. cbn iota.
    apply setitem_nat; lia.
  - destruct (peek (board self) i j =? 0); [| reflexivity].
    destruct (_ =? 3); [| reflexivity].
    change (1 =? 1) with true. cbn iota.
    apply setitem_nat; lia.
Qed.

Lemma decided_shape (nb : ndarray) (i j : nat) :
  nrows (decided self nb i j) = nrows nb /\ ncols (decided self nb i j) = ncols nb.
Proof. unfold decided. destruct (_ =? 1); auto. Qed.

Lemma wf_decided (nb : ndarray) (i j : nat) :
  wf_array nb -> wf_array (decided self nb i j).
Proof. unfold decided. destruct (_ =? 1); auto using wf_put. Qed.

Lemma peek_decided (nb : ndarray) (i j i' j' : nat) :
  wf_array nb -> (i < nrows nb)%nat -> (j < ncols nb)%nat ->
  peek (decided self nb i j) i' j'
  = if bool_decide (i = i' /\ j = j')
       && (next_state (peek (board self) i j)
                      (neighbour_sum self (Z.of_nat i) (Z.of_nat j)) =? 1)
    then 1 else peek nb i' j'.
Proof.
  intros Hnb Hi Hj. unfold decided.
  destruct (_ =? 1).
  - rewrite peek_put by auto. rewrite andb_true_r. reflexivity.
  - rewrite andb_false_r. reflexivity.
Qed.

(** The loop over a list of indices of the board: it never raises, and
    it sets to 1 the listed cells that the rule makes alive, leaving the
    other cells of the new board as they were. *)
Lemma update_loop (l : list (nat * nat)) :
  forall nb : ndarray,
    wf_array nb ->
    nrows nb = nrows (board self) -> ncols nb = ncols (board self) ->
    Forall (fun rc => (fst rc < nrows (board self))%nat
                      /\ (snd rc < ncols (board self))%nat) l ->
    exists nb',
      foldM (update_cell self) nb l = Ok nb'
      /\ wf_array nb'
      /\ nrows nb' = nrows (board self) /\ ncols nb' = ncols (board self)
      /\ forall i j,
          peek nb' i j
          = if bool_decide ((i, j) ∈ l)
               && (next_state (peek (board self) i j)
                              (neighbour_sum self (Z.of_nat i) (Z.of_nat j))
                   =? 1)
            then 1 else peek nb i j.
Proof.
  induction l as [| [i0 j0] l IH]; intros nb Hnb Hnr Hnc Hl.
  - exists nb. cbn [foldM]. split_and!; auto.
  - apply Forall_cons in Hl as [[Hi0 Hj0] Hl]. cbn [fst snd] in *.
    cbn [foldM]. rewrite update_cell_ok by auto. cbn [mbind result_bind].
    destruct (decided_shape nb i0 j0) as [Hdr Hdc].
    destruct (IH (decided self nb i0 j0)) as (nb' & Hfold & Hwf' & Hr' & Hc' & Hcells);
      [auto using wf_decided | congruence | congruence | exact Hl |].
    exists nb'. split_and!; auto.
    intros i j. rewrite Hcells.
    rewrite peek_decided by (auto; lia).
    destruct (decide ((i, j) = (i0, j0))) as [Heq | Hne].
    + inversion Heq; subst.
      rewrite (bool_decide_eq_true_2 ((i0, j0) ∈ (i0, j0) :: l))
        by (apply list_elem_of_here).
      rewrite (bool_decide_eq_true_2 (i0 = i0 /\ j0 = j0)) by auto.
      cbn [andb]. destruct (_ =? 1).
      * destruct (bool_decide _); reflexivity.
      * rewrite andb_false_r. reflexivity.
    + rewrite (bool_decide_eq_false_2 (i0 = i /\ j0 = j))
        by (intros [-> ->]; auto).
      cbn [andb].
      rewrite (bool_decide_ext ((i, j) ∈ (i0, j0) :: l) ((i, j) ∈ l)).
      * reflexivity.
      * rewrite elem_of_cons. split; [intros [? | ?]; [contradiction | auto] | auto].
Qed.

(** [update_board] returns, and every cell of the board it installs is
    the rule applied to the cell and to the neighbour count of the board
    it started from. *)
Lemma update_board_cells :
  exists nb',
    update_board self = Ok (set_board self nb')
    /\ wf_array nb'
    /\ nrows nb' = nrows (board self) /\ ncols nb' = ncols (board self)
    /\ forall i j, (i < nrows (board self))%nat -> (j < ncols (board self))%nat ->
          peek nb' i j
          = next_state (peek (board self) i j)
                       (neighbour_sum self (Z.of_nat i) (Z.of_nat j)).
Proof.
  unfold update_board.
  destruct (update_loop (ndindex (shape (board self)))
              (zeros (nrows (board self)) (ncols (board self))))
    as (nb' & Hfold & Hwf' & Hr' & Hc' & Hcells);
    [apply wf_zeros | reflexivity | reflexivity | |].
  { apply Forall_forall. intros [i j] Hin.
    apply elem_of_ndindex in Hin. exact Hin. }
  exists nb'. rewrite Hfold. cbn [mbind result_bind].
  split_and!; auto.
  intros i j Hi Hj. rewrite Hcells.
  rewrite bool_decide_eq_true_2 by (apply elem_of_ndindex; auto).
  cbn [andb]. rewrite peek_zeros.
  destruct (next_state_binary (peek (board self) i j)
              (neighbour_sum self (Z.of_nat i) (Z.of_nat j))) as [-> | ->];
    reflexivity.
Qed.
End Update.

(** ** The claims on [update_board] *)

(** C1: [update_board] returns on every board, and for every cell [(r, c)]
    the state [v'] it installs is decided from the state [v] of the cell and
    from [n = count_alive_neighbours(r, c)], both read in the board that
    [update_board] started from: an alive cell is alive again exactly when
    [2 <= n <= 3], a dead cell becomes alive exactly when [n = 3], and the
    cell is dead in every other case. The new board is a buffer of its own,
    installed in one piece: the dimensions and the configuration are kept. *)
Theorem update_board_rule (self : GameOfLife) :
  wf_game self ->
  exists self',
    update_board self = Ok self'
    /\ wf_game self'
    /\ ROWS self' = ROWS self /\ COLS self' = COLS self
    /\ CONFIG self' = CONFIG self
    /\ forall r c, 0 <= r < ROWS self -> 0 <= c < COLS self ->
        exists v n v',
          getitem (board self) r c = Ok v
          /\ count_alive_neighbours self r c = Ok n
          /\ getitem (board self') r c = Ok v'
          /\ (v = 1 -> (v' = 1 <-> 2 <= n <= 3))
          /\ (v = 0 -> (v' = 1 <-> n = 3))
          /\ (v' = 1 \/ v' = 0)
          /\ (v' = 1 -> (v = 1 /\ 2 <= n <= 3) \/ (v = 0 /\ n = 3)).
Proof.
  intros Hwf.
  destruct (update_board_cells self Hwf) as (nb' & Hup & Hwf' & Hr' & Hc' & Hcells).
  pose proof Hwf as (Ha & HR & HC).
  exists (set_board self nb'). split; [exact Hup |].
  assert (wf_game (set_board self nb')) as Hwfg.
  { split; [exact Hwf' |]. cbn. split; congruence. }
  split_and!; auto.
  intros r c Hr Hc.
  exists (peek (board self) (Z.to_nat r) (Z.to_nat c)),
         (neighbour_sum self r c),
         (peek nb' (Z.to_nat r) (Z.to_nat c)).
  cbn [set_board board].
  rewrite !getitem_in_range by (auto; lia).
  rewrite count_in_range by (auto; lia).
  rewrite Hcells by lia. rewrite !Z2Nat.id by lia.
  split_and!; try reflexivity; unfold next_state;
    generalize (neighbour_sum self r c) as n;
    generalize (peek (board self) (Z.to_nat r) (Z.to_nat c)) as v; intros v n;
    destruct (Z.eqb_spec v 1); destruct (Z.eqb_spec v 0);
    destruct (Z.leb_spec n 3); destruct (Z.geb_spec n 2);
    destruct (Z.eqb_spec n 3); cbn [andb]; lia.
Qed.

Lemma update_board_rule_witness :
  exists self',
    update_board blinker_5x5 = Ok self'
    /\ wf_game self'
    /\ ROWS self' = ROWS blinker_5x5 /\ COLS self' = COLS blinker_5x5
    /\ CONFIG self' = CONFIG blinker_5x5
    /\ forall r c, 0 <= r < ROWS blinker_5x5 -> 0 <= c < COLS blinker_5x5 ->
        exists v n v',
          getitem (board blinker_5x5) r c = Ok v
          /\ count_alive_neighbours blinker_5x5 r c = Ok n
          /\ getitem (board self') r c = Ok v'
          /\ (v = 1 -> (v' = 1 <-> 2 <= n <= 3))
          /\ (v = 0 -> (v' = 1 <-> n = 3))
          /\ (v' = 1 \/ v' = 0)
          /\ (v' = 1 -> (v = 1 /\ 2 <= n <= 3) \/ (v = 0 /\ n = 3)).
Proof.
  apply (update_board_rule blinker_5x5). compute_done.
Defined.

(** The blinker turns by a quarter in one generation. *)
Example update_board_blinker :
  update_board blinker_5x5
  = Ok (game_of 5 5 [[0; 0; 0; 0; 0]; [0; 0; 0; 0; 0]; [0; 1; 1; 1; 0];
                     [0; 0; 0; 0; 0]; [0; 0; 0; 0; 0]]).
Proof. vm_compute. reflexivity. Qed.

Lemma neighbour_sum_all_dead (self : GameOfLife) (r c : nat) (x y : Z) :
  board self = zeros r c -> neighbour_sum self x y = 0.
Proof.
  intros Hb. unfold neighbour_sum. rewrite block_sum_eq.
  unfold torus. rewrite Hb, !peek_zeros.
  vm_compute. reflexivity.
Qed.

(** C9: for every board size, zero rows or columns included, an all-dead
    board is all-dead after [update_board]: the state is unchanged. *)
Theorem update_board_all_dead (self : GameOfLife) (r c : nat) :
  board self = zeros r c ->
  ROWS self = Z.of_nat r -> COLS self = Z.of_nat c ->
  update_board self = Ok self.
Proof.
  intros Hb HR HC.
  assert (wf_game self) as Hwf.
  { split; [rewrite Hb; apply wf_zeros |]. rewrite Hb. cbn. auto. }
  destruct (update_board_cells self Hwf) as (nb' & Hup & Hwf' & Hr' & Hc' & Hcells).
  rewrite Hup. f_equal.
  assert (nb' = board self) as ->.
  { apply array_ext; auto.
    - apply Hwf.
    - intros i j Hi Hj. rewrite Hcells by lia.
      rewrite (neighbour_sum_all_dead self r c) by exact Hb.
      rewrite Hb, peek_zeros. reflexivity. }
  destruct self. reflexivity.
Qed.

Lemma update_board_all_dead_witness :
  update_board (all_dead 3 4) = Ok (all_dead 3 4)
  /\ update_board (all_dead 0 4) = Ok (all_dead 0 4)
  /\ update_board (all_dead 1 1) = Ok (all_dead 1 1).
Proof.
  split_and!.
  - apply (update_board_all_dead (all_dead 3 4) 3 4); reflexivity.
  - apply (update_board_all_dead (all_dead 0 4) 0 4); reflexivity.
  - apply (update_board_all_dead (all_dead 1 1) 1 1); reflexivity.
Defined.

(** After [update_board] every cell is 0 or 1, whatever the cells were. *)
Lemma update_board_binary (self : GameOfLife) :
  wf_game self ->
  exists self', update_board self = Ok self' /\ wf_game self'
                /\ binary (board self').
Proof.
  intros Hwf.
  destruct (update_board_cells self Hwf) as (nb' & Hup & Hwf' & Hr' & Hc' & Hcells).
  pose proof Hwf as (Ha & HR & HC).
  exists (set_board self nb'). split_and!; auto.
  - split; [exact Hwf' |]. cbn. split; congruence.
  - cbn [set_board board]. apply binary_of_peek; [exact Hwf' |].
    intros i j Hi Hj. rewrite Hcells by lia. apply next_state_binary.
Qed.

(** ** Assignment to a slice *)

Lemma length_overlay {A : Type} (new old : list A) :
  (length new <= length old)%nat -> length (overlay new old) = length old.
Proof.
  intros Hle. unfold overlay. rewrite length_app, length_drop. lia.
Qed.

Lemma lookup_overlay {A : Type} (new old : list A) (i : nat) :
  overlay new old !! i
  = if decide (i < length new)%nat then new !! i else old !! i.
Proof.
  unfold overlay. destruct (decide (i < length new)%nat) as [Hlt | Hge].
  - apply lookup_app_l. exact Hlt.
  - rewrite lookup_app_r by lia. rewrite lookup_drop. f_equal. lia.
Qed.

Lemma length_broadcast_to (v : ndarray) (tr tc : nat) :
  length (broadcast_to v tr tc) = tr.
Proof. unfold broadcast_to. rewrite length_fmap, length_seq. reflexivity. Qed.

Lemma lookup_broadcast_to (v : ndarray) (tr tc i : nat) :
  (i < tr)%nat ->
  broadcast_to v tr tc !! i
  = Some ((fun j => broadcast_cell v i j) <$> seq 0 tc).
Proof.
  intros Hi. unfold broadcast_to.
  rewrite list_lookup_fmap, lookup_seq_lt by exact Hi. reflexivity.
Qed.

Section Slice.
Variables (a v : ndarray) (stop_r stop_c : nat).
Hypothesis Hwf : wf_array a.

Lemma setitem_slice_ok :
  broadcastable (nrows v) (ncols v)
                (Nat.min stop_r (nrows a)) (Nat.min stop_c (ncols a)) = true ->
  exists b,
    setitem_slice a stop_r stop_c v = Ok b
    /\ wf_array b /\ nrows b = nrows a /\ ncols b = ncols a
    /\ forall i j, (i < nrows a)%nat -> (j < ncols a)%nat ->
          peek b i j
          = if bool_decide (i < Nat.min stop_r (nrows a))%nat
               && bool_decide (j < Nat.min stop_c (ncols a))%nat
            then broadcast_cell v i j else peek a i j.
Proof.
  intros Hbc. destruct Hwf as [Hlen Hrows].
  unfold setitem_slice. cbn zeta. rewrite Hbc.
  set (tr := Nat.min stop_r (nrows a)) in *.
  set (tc := Nat.min stop_c (ncols a)) in *.
  eexists. split; [reflexivity |].
  assert (length (zip_with overlay (broadcast_to v tr tc) (take tr (data a)))
          = tr) as Hlz.
  { rewrite length_zip_with, length_broadcast_to, length_take. subst tr. lia. }
  split_and!; cbn [nrows ncols data]; auto.
  - split; cbn [nrows ncols data].
    + rewrite length_overlay by (rewrite Hlz; subst tr; lia). exact Hlen.
    + apply Forall_lookup. intros i row Hrow.
      rewrite lookup_overlay, Hlz in Hrow.
      destruct (decide (i < tr)%nat) as [Hi | Hi].
      * rewrite lookup_zip_with in Hrow.
        rewrite lookup_broadcast_to in Hrow by exact Hi.
        rewrite lookup_take_lt in Hrow by exact Hi. cbn in Hrow.
        destruct (data a !! i) as [old |] eqn:Hold; [| discriminate].
        cbn in Hrow. inversion Hrow; subst row.
        assert (length old = ncols a) as Hlo
          by (rewrite Forall_lookup in Hrows; eauto).
        rewrite length_overlay; [exact Hlo |].
        rewrite length_fmap, length_seq. subst tc. lia.
      * rewrite Forall_lookup in Hrows. eauto.
  - intros i j Hi Hj. unfold peek, cell. cbn [data].
    rewrite lookup_overlay, Hlz.
    destruct (lookup_lt_is_Some_2 (data a) i) as [old Hold]; [lia |].
    assert (length old = ncols a) as Hlo
      by (rewrite Forall_lookup in Hrows; eauto).
    destruct (decide (i < tr)%nat) as [Hit | Hit].
    + rewrite (bool_decide_eq_true_2 (i < tr)%nat) by exact Hit.
      rewrite lookup_zip_with, lookup_broadcast_to by exact Hit.
      rewrite lookup_take_lt by exact Hit. rewrite Hold. cbn.
      rewrite lookup_overlay, length_fmap, length_seq.
      destruct (decide (j < tc)%nat) as [Hjt | Hjt].
      * rewrite (bool_decide_eq_true_2 (j < tc)%nat) by exact Hjt.
        rewrite list_lookup_fmap, lookup_seq_lt by exact Hjt. reflexivity.
      * rewrite (bool_decide_eq_false_2 (j < tc)%nat) by exact Hjt.
        reflexivity.
    + rewrite (bool_decide_eq_false_2 (i < tr)%nat) by exact Hit.
      rewrite Hold. reflexivity.
Qed.

Lemma setitem_slice_raises :
  broadcastable (nrows v) (ncols v)
                (Nat.min stop_r (nrows a)) (Nat.min stop_c (ncols a)) = false ->
  setitem_slice a stop_r stop_c v = Raise ValueError.
Proof.
  intros Hbc. unfold setitem_slice. cbn zeta. rewrite Hbc. reflexivity.
Qed.
End Slice.

(** ** Seeding the board *)

Lemma forallb_Forall {A : Type} (f : A -> bool) (l : list A) :
  forallb f l = true <-> Forall (fun x => f x = true) l.
Proof.
  induction l as [| x l IH]; cbn.
  - split; auto.
  - rewrite andb_true_iff, Forall_cons, IH. reflexivity.
Qed.

Lemma asarray_rectangular (p : pattern) :
  p <> [] -> rectangular p ->
  asarray p = Ok {| nrows := pattern_rows p; ncols := pattern_cols p;
                    data := p |}.
Proof.
  intros Hne Hrect. destruct p as [| row0 rest]; [contradiction |].
  unfold asarray, rectangular, pattern_cols in *. cbn [head default] in *.
  assert (forallb (fun row => (length row =? length row0)%nat) (row0 :: rest)
          = true) as ->.
  { apply forallb_Forall. eapply Forall_impl; [exact Hrect |].
    intros row Hrow. cbn beta in Hrow. apply Nat.eqb_eq. exact Hrow. }
  reflexivity.
Qed.

Lemma asarray_data (p : pattern) (v : ndarray) :
  asarray p = Ok v -> data v = p.
Proof.
  unfold asarray. destruct p as [| row0 rest]; [discriminate |].
  destruct (forallb _ _); [| discriminate].
  intros Hv. inversion Hv. reflexivity.
Qed.

Lemma np_zeros_ok (r c : Z) :
  0 <= r -> 0 <= c -> np_zeros r c = Ok (zeros (Z.to_nat r) (Z.to_nat c)).
Proof.
  intros Hr Hc. unfold np_zeros.
  destruct (Z.ltb_spec r 0); [lia |]. destruct (Z.ltb_spec c 0); [lia |].
  reflexivity.
Qed.

Lemma not_Random (option : string) :
  option <> "Random" -> String.eqb option "Random" = false.
Proof. intros Hne. apply String.eqb_neq. exact Hne. Qed.

(** Seeding with a template that is an array: what is left to do after
    the configuration is loaded and the board is reset. *)
Lemma populate_board_template (self : GameOfLife) (w : World)
  (f : gmap string pattern) (option : string) (p : pattern) :
  config_json w = Some f -> f !! option = Some p -> option <> "Random" ->
  p <> [] -> rectangular p -> 0 <= ROWS self -> 0 <= COLS self ->
  populate_board self w option
  = b ← setitem_slice (zeros (Z.to_nat (ROWS self)) (Z.to_nat (COLS self)))
                      (pattern_rows p) (pattern_cols p)
                      {| nrows := pattern_rows p; ncols := pattern_cols p;
                         data := p |};
    Ok (set_board (set_CONFIG self f) b, w).
Proof.
  intros Hfile Hp Hopt Hne Hrect HR HC.
  unfold populate_board, load_config. rewrite Hfile.
  cbn [mbind result_bind set_CONFIG ROWS COLS].
  rewrite np_zeros_ok by lia. cbn [mbind result_bind].
  rewrite (not_Random _ Hopt).
  unfold config_get. cbn [set_board set_CONFIG CONFIG board]. rewrite Hp.
  cbn [mbind result_bind].
  destruct p as [| row0 rest] eqn:Ep; [contradiction |].
  cbn [list_first mbind result_bind]. rewrite <- Ep in *.
  rewrite asarray_rectangular by (subst p; auto; discriminate).
  cbn [mbind result_bind].
  replace (length row0) with (pattern_cols p) by (subst p; reflexivity).
  fold (pattern_rows p).
  destruct (setitem_slice _ _ _ _); reflexivity.
Qed.

Lemma broadcast_cell_peek (v : ndarray) (i j : nat) :
  (i < nrows v)%nat -> (j < ncols v)%nat -> broadcast_cell v i j = peek v i j.
Proof.
  intros Hi Hj. unfold broadcast_cell, peek.
  destruct (Nat.eqb_spec (nrows v) 1); destruct (Nat.eqb_spec (ncols v) 1);
    repeat f_equal; lia.
Qed.

(** C2, as the code has it: a template that fits within the board is
    copied at the top-left corner of an all-dead board and nothing is
    raised; a template with more rows than the board, or more columns, is
    not truncated: the assignment to the slice raises [ValueError] (unless
    the template has length 1 along that axis, which NumPy broadcasts). *)
Theorem populate_board_fits_or_raises (self : GameOfLife) (w : World)
  (f : gmap string pattern) (option : string) (p : pattern) :
  config_json w = Some f -> f !! option = Some p -> option <> "Random" ->
  p <> [] -> rectangular p -> 0 <= ROWS self -> 0 <= COLS self ->
  (Z.of_nat (pattern_rows p) <= ROWS self ->
   Z.of_nat (pattern_cols p) <= COLS self ->
   exists self',
     populate_board self w option = Ok (self', w)
     /\ wf_game self' /\ ROWS self' = ROWS self /\ COLS self' = COLS self
     /\ forall i j, Z.of_nat i < ROWS self -> Z.of_nat j < COLS self ->
           peek (board self') i j
           = if bool_decide (i < pattern_rows p)%nat
                && bool_decide (j < pattern_cols p)%nat
             then pattern_cell p i j else 0)
  /\ ((ROWS self < Z.of_nat (pattern_rows p) /\ pattern_rows p <> 1%nat)
      \/ (COLS self < Z.of_nat (pattern_cols p) /\ pattern_cols p <> 1%nat) ->
      populate_board self w option = Raise ValueError).
Proof.
  intros Hfile Hp Hopt Hne Hrect HR HC.
  rewrite (populate_board_template self w f option p) by assumption.
  set (v := {| nrows := pattern_rows p; ncols := pattern_cols p; data := p |}).
  set (z := zeros (Z.to_nat (ROWS self)) (Z.to_nat (COLS self))).
  split.
  - intros Hrows Hcols.
    destruct (setitem_slice_ok z v (pattern_rows p) (pattern_cols p))
      as (b & Hset & Hwfb & Hrb & Hcb & Hcells).
    + apply wf_zeros.
    + unfold broadcastable. cbn [nrows ncols z v zeros].
      rewrite !Nat.min_l by lia. rewrite !Nat.eqb_refl. reflexivity.
    + rewrite Hset. cbn [mbind result_bind].
      eexists. split; [reflexivity |].
      cbn [set_board set_CONFIG ROWS COLS board].
      split_and!; auto.
      * split; [exact Hwfb |]. cbn [set_board set_CONFIG ROWS COLS board].
        rewrite Hrb, Hcb. cbn [z zeros nrows ncols]. lia.
      * intros i j Hi Hj.
        rewrite Hcells by (cbn [z zeros nrows ncols]; lia).
        cbn [z zeros nrows ncols]. rewrite !Nat.min_l by lia.
        destruct (bool_decide_reflect (i < pattern_rows p)%nat) as [Hip | Hip];
          destruct (bool_decide_reflect (j < pattern_cols p)%nat) as [Hjp | Hjp];
          cbn [andb]; try apply peek_zeros.
        rewrite broadcast_cell_peek by (cbn [v nrows ncols]; lia).
        reflexivity.
  - intros Hlarge.
    rewrite setitem_slice_raises; [reflexivity |].
    unfold broadcastable. cbn [nrows ncols z v zeros].
    destruct Hlarge as [[Hlt Hone] | [Hlt Hone]].
    + rewrite Nat.min_r by lia.
      destruct (Nat.eqb_spec (pattern_rows p) (Z.to_nat (ROWS self))); [lia |].
      destruct (Nat.eqb_spec (pattern_rows p) 1); [lia |]. reflexivity.
    + rewrite (Nat.min_r (pattern_cols p)) by lia.
      destruct (Nat.eqb_spec (pattern_cols p) (Z.to_nat (COLS self))); [lia |].
      destruct (Nat.eqb_spec (pattern_cols p) 1); [lia |].
      cbn [orb]. apply andb_false_r.
Qed.

Lemma populate_board_fits_or_raises_witness :
  (exists self',
     populate_board (all_dead 4 5) sample_world "Glider"
     = Ok (self', sample_world)
     /\ wf_game self'
     /\ ROWS self' = ROWS (all_dead 4 5) /\ COLS self' = COLS (all_dead 4 5)
     /\ forall i j, Z.of_nat i < ROWS (all_dead 4 5) ->
                    Z.of_nat j < COLS (all_dead 4 5) ->
           peek (board self') i j
           = if bool_decide (i < pattern_rows glider)%nat
                && bool_decide (j < pattern_cols glider)%nat
             then pattern_cell glider i j else 0)
  /\ populate_board (all_dead 2 2) sample_world "Glider" = Raise ValueError.
Proof.
  assert (config_json sample_world = Some sample_config) as Hfile
    by reflexivity.
  assert (sample_config !! "Glider" = Some glider) as Hp
    by (vm_compute; reflexivity).
  assert ("Glider" <> "Random") as Hopt by discriminate.
  assert (glider <> []) as Hne by discriminate.
  assert (rectangular glider) as Hrect by compute_done.
  split.
  - apply (populate_board_fits_or_raises (all_dead 4 5) sample_world
             sample_config "Glider" glider Hfile Hp Hopt Hne Hrect);
      cbn; lia.
  - apply (populate_board_fits_or_raises (all_dead 2 2) sample_world
             sample_config "Glider" glider Hfile Hp Hopt Hne Hrect);
      [cbn; lia | cbn; lia |].
    left. cbn. split; [lia | discriminate].
Defined.

(** C2 as stated fails: the 3x3 glider on a 2x2 board is not truncated,
    the assignment raises. *)
Lemma populate_board_larger_template_raises :
  populate_board (all_dead 2 2) sample_world "Glider" = Raise ValueError.
Proof. vm_compute. reflexivity. Qed.

Example populate_board_glider :
  populate_board (all_dead 4 5) sample_world "Glider"
  = Ok (set_CONFIG
          (game_of 4 5 [[0; 1; 0; 0; 0]; [0; 0; 1; 0; 0]; [1; 1; 1; 0; 0];
                        [0; 0; 0; 0; 0]])
          sample_config,
        sample_world).
Proof. vm_compute. reflexivity. Qed.

(** C8: for every template option (any option but "Random"), seeding twice
    in a row is seeding once, exceptions included; and the outcome of a
    seeding does not depend on the cells the board had before: the board is
    reset before the copy. *)
Theorem populate_board_idempotent (self : GameOfLife) (w : World)
  (option : string) :
  option <> "Random" ->
  (sw ← populate_board self w option; populate_board (fst sw) (snd sw) option)
  = populate_board self w option
  /\ forall b : ndarray,
      populate_board (set_board self b) w option
      = populate_board self w option.
Proof.
  intros Hopt. split.
  - unfold populate_board at 2 3. unfold load_config.
    destruct (config_json w) as [f |] eqn:Hfile; [| reflexivity].
    cbn [mbind result_bind set_CONFIG set_board ROWS COLS CONFIG board].
    destruct (np_zeros (ROWS self) (COLS self)) as [z |] eqn:Hz; [| reflexivity].
    cbn [mbind result_bind]. rewrite (not_Random _ Hopt).
    destruct (config_get f option) as [p |] eqn:Hp; [| reflexivity].
    cbn [mbind result_bind].
    destruct (list_first p) as [row0 |] eqn:Hrow0; [| reflexivity].
    cbn [mbind result_bind].
    destruct (asarray p) as [v |] eqn:Hv; [| reflexivity].
    cbn [mbind result_bind].
    destruct (setitem_slice z (length p) (length row0) v) as [b |] eqn:Hb;
      [| reflexivity].
    cbn [mbind result_bind fst snd].
    unfold populate_board, load_config. rewrite Hfile.
    cbn [mbind result_bind set_CONFIG set_board ROWS COLS CONFIG board].
    rewrite Hz. cbn [mbind result_bind]. rewrite (not_Random _ Hopt).
    rewrite Hp. cbn [mbind result_bind]. rewrite Hrow0.
    cbn [mbind result_bind]. rewrite Hv. cbn [mbind result_bind].
    rewrite Hb. reflexivity.
  - intros b. unfold populate_board, load_config.
    destruct (config_json w) as [f |]; [| reflexivity].
    cbn [mbind result_bind set_CONFIG set_board ROWS COLS CONFIG board
         SCREEN_WIDTH SCREEN_HEIGHT].
    reflexivity.
Qed.

Lemma populate_board_idempotent_witness :
  ((sw ← populate_board blinker_5x5 sample_world "Block";
    populate_board (fst sw) (snd sw) "Block")
   = populate_board blinker_5x5 sample_world "Block"
   /\ forall b : ndarray,
       populate_board (set_board blinker_5x5 b) sample_world "Block"
       = populate_board blinker_5x5 sample_world "Block")
  /\ populate_board blinker_5x5 sample_world "Block"
     = Ok (set_CONFIG
             (game_of 5 5 [[1; 1; 0; 0; 0]; [1; 1; 0; 0; 0]; [0; 0; 0; 0; 0];
                           [0; 0; 0; 0; 0]; [0; 0; 0; 0; 0]])
             sample_config,
           sample_world).
Proof.
  split.
  - apply (populate_board_idempotent blinker_5x5 sample_world "Block").
    discriminate.
  - vm_compute. reflexivity.
Defined.

(** ** Saving and restoring *)

Lemma wf_rectangular (a : ndarray) :
  wf_array a -> (0 < nrows a)%nat ->
  data a <> [] /\ rectangular (data a)
  /\ pattern_rows (data a) = nrows a /\ pattern_cols (data a) = ncols a.
Proof.
  intros [Hlen Hrows] Hpos.
  destruct (data a) as [| row0 rest] eqn:Hd; [cbn in Hlen; lia |].
  assert (length row0 = ncols a) as Hl0 by (apply Forall_cons in Hrows; tauto).
  unfold rectangular, pattern_rows, pattern_cols. cbn [head default].
  split_and!; auto.
  unfold id. rewrite Hl0. exact Hrows.
Qed.

(** C7, as the code has it: on a board with at least one row, saving and
    then seeding with the "Saved" option returns, and the board is cell for
    cell the board that was saved. *)
Theorem save_then_restore (self : GameOfLife) (w : World) :
  wf_game self -> 0 < ROWS self ->
  exists self' w',
    populate_board (fst (save_config self w)) (snd (save_config self w)) "Saved"
    = Ok (self', w')
    /\ board self' = board self.
Proof.
  intros (Ha & HR & HC) Hpos.
  destruct (wf_rectangular (board self) Ha) as (Hne & Hrect & Hpr & Hpc); [lia |].
  rewrite (populate_board_template _ _
             (<["Saved" := tolist (board self)]> (CONFIG self)) "Saved"
             (data (board self)));
    [| reflexivity | apply lookup_insert_eq | discriminate | assumption
     | assumption | cbn; lia | cbn; lia].
  cbn [save_config fst snd set_CONFIG ROWS COLS].
  rewrite Hpr, Hpc.
  replace {| nrows := nrows (board self); ncols := ncols (board self);
             data := data (board self) |} with (board self)
    by (destruct (board self); reflexivity).
  rewrite HR, HC, !Nat2Z.id.
  destruct (setitem_slice_ok (zeros (nrows (board self)) (ncols (board self)))
              (board self) (nrows (board self)) (ncols (board self)))
    as (b & Hset & Hwfb & Hrb & Hcb & Hcells).
  - apply wf_zeros.
  - unfold broadcastable. cbn [zeros nrows ncols].
    rewrite !Nat.min_id, !Nat.eqb_refl. reflexivity.
  - rewrite Hset. cbn [mbind result_bind].
    eexists. eexists. split; [reflexivity |].
    cbn [set_board board].
    apply array_ext; auto.
    intros i j Hi Hj. cbn [zeros nrows ncols] in *.
    rewrite Hcells by lia. rewrite !Nat.min_id.
    rewrite !bool_decide_eq_true_2 by lia. cbn [andb].
    apply broadcast_cell_peek; lia.
Qed.

Lemma save_then_restore_witness :
  exists self' w',
    populate_board (fst (save_config blinker_5x5 sample_world))
                   (snd (save_config blinker_5x5 sample_world)) "Saved"
    = Ok (self', w')
    /\ board self' = board blinker_5x5.
Proof.
  apply (save_then_restore blinker_5x5 sample_world).
  - compute_done.
  - cbn. lia.
Defined.

(** C7 as stated fails on a board without rows: the saved template is the
    empty list, and reading its first row raises. *)
Lemma save_then_restore_no_rows_raises :
  populate_board (fst (save_config (all_dead 0 3) sample_world))
                 (snd (save_config (all_dead 0 3) sample_world)) "Saved"
  = Raise IndexError.
Proof. vm_compute. reflexivity. Qed.

(** ** The cells are 0 or 1 *)

Lemma binary_zeros (r c : nat) : binary (zeros r c).
Proof.
  unfold binary, binary_row, zeros. cbn [data].
  apply Forall_replicate. apply Forall_replicate. auto.
Qed.

Lemma Forall_overlay {A : Type} (P : A -> Prop) (new old : list A) :
  Forall P new -> Forall P old -> Forall P (overlay new old).
Proof.
  intros Hnew Hold. unfold overlay.
  apply Forall_app. split; [exact Hnew | apply Forall_drop; exact Hold].
Qed.

Lemma Forall_zip_with_closed {A : Type} (P : A -> Prop) (f : A -> A -> A)
  (l k : list A) :
  (forall x y, P x -> P y -> P (f x y)) ->
  Forall P l -> Forall P k -> Forall P (zip_with f l k).
Proof.
  intros Hf Hl. revert k.
  induction Hl as [| x l Hx Hl IH]; intros k Hk; [constructor |].
  destruct Hk as [| y k Hy Hk]; cbn; [constructor |].
  constructor; auto.
Qed.

Lemma broadcast_cell_binary (v : ndarray) (i j : nat) :
  binary v -> broadcast_cell v i j = 0 \/ broadcast_cell v i j = 1.
Proof.
  intros Hbin. unfold broadcast_cell, cell.
  generalize (if (nrows v =? 1)%nat then 0%nat else i) as i'.
  generalize (if (ncols v =? 1)%nat then 0%nat else j) as j'.
  intros j' i'.
  destruct (data v !! i') as [row |] eqn:Hrow; cbn; [| auto].
  destruct (row !! j') as [x |] eqn:Hx; cbn; [| auto].
  unfold binary in Hbin. rewrite Forall_lookup in Hbin.
  specialize (Hbin i' row Hrow).
  unfold binary_row in Hbin. rewrite Forall_lookup in Hbin. eauto.
Qed.

Lemma setitem_slice_binary (a v b : ndarray) (stop_r stop_c : nat) :
  binary a -> binary v -> setitem_slice a stop_r stop_c v = Ok b -> binary b.
Proof.
  intros Ha Hv. unfold setitem_slice.
  destruct (broadcastable _ _ _ _); [| discriminate].
  intros Hb. inversion Hb. unfold binary. cbn [data].
  apply Forall_overlay; [| exact Ha].
  apply Forall_zip_with_closed.
  - intros x y Hx Hy. apply Forall_overlay; assumption.
  - unfold broadcast_to. apply Forall_fmap, Forall_forall. intros i _.
    cbn. unfold binary_row. apply Forall_fmap, Forall_forall. intros j _.
    cbn. apply broadcast_cell_binary. exact Hv.
  - apply Forall_take. exact Ha.
Qed.

Lemma randint_binary (r c : nat) (w : World) :
  binary (fst (randint 0 2 r c w)).
Proof.
  unfold randint, binary. cbn [fst data].
  apply Forall_fmap, Forall_forall. intros i _. cbn.
  unfold binary_row. apply Forall_fmap, Forall_forall. intros j _. cbn.
  pose proof (Z.mod_pos_bound (entropy w (drawn w + i * c + j)%nat) (2 - 0)).
  lia.
Qed.

Lemma populate_board_binary (self self' : GameOfLife) (w w' : World)
  (option : string) :
  populate_board self w option = Ok (self', w') ->
  option = "Random"
  \/ (exists f p, config_json w = Some f /\ f !! option = Some p
                  /\ Forall binary_row p) ->
  binary (board self').
Proof.
  unfold populate_board, load_config. intros Hpop Hsrc.
  destruct (config_json w) as [f |] eqn:Hfile; [| discriminate].
  cbn [mbind result_bind set_CONFIG set_board ROWS COLS CONFIG board] in Hpop.
  unfold np_zeros in Hpop.
  destruct (_ || _); [discriminate |].
  cbn [mbind result_bind] in Hpop.
  destruct (String.eqb_spec option "Random") as [-> | Hne].
  - pose proof (randint_binary (Z.to_nat (ROWS self)) (Z.to_nat (COLS self)) w)
      as Hbin.
    destruct (randint 0 2 _ _ w) as [b w1]. inversion Hpop; subst.
    exact Hbin.
  - destruct Hsrc as [-> | (f' & p & Hf' & Hp & Hbin)]; [contradiction |].
    assert (f' = f) as -> by congruence.
    unfold config_get in Hpop. rewrite Hp in Hpop.
    cbn [mbind result_bind] in Hpop.
    destruct (list_first p) as [row0 |]; [| discriminate].
    cbn [mbind result_bind] in Hpop.
    destruct (asarray p) as [v |] eqn:Hv; [| discriminate].
    cbn [mbind result_bind] in Hpop.
    destruct (setitem_slice _ _ _ v) as [b |] eqn:Hb; [| discriminate].
    inversion Hpop; subst. cbn [board].
    eapply setitem_slice_binary; [apply binary_zeros | | exact Hb].
    unfold binary. rewrite (asarray_data p v Hv). exact Hbin.
Qed.

(** C10: the cells stay 0 or 1. [update_board] installs a board of 0/1
    cells whatever the cells were; [populate_board], when it returns, has
    installed a board of 0/1 cells for the "Random" option and for every
    option whose template in the configuration file has 0/1 cells;
    [save_config] leaves the board as it is and stores it as the "Saved"
    template, which has 0/1 cells when the board has. *)
Theorem cells_stay_binary (self : GameOfLife) (w : World) :
  (wf_game self ->
   exists self', update_board self = Ok self' /\ binary (board self'))
  /\ (forall option self' w',
        populate_board self w option = Ok (self', w') ->
        option = "Random"
        \/ (exists f p, config_json w = Some f /\ f !! option = Some p
                        /\ Forall binary_row p) ->
        binary (board self'))
  /\ (binary (board self) ->
      board (fst (save_config self w)) = board self
      /\ exists f p,
          config_json (snd (save_config self w)) = Some f
          /\ f !! "Saved" = Some p /\ Forall binary_row p).
Proof.
  split_and!.
  - intros Hwf.
    destruct (update_board_binary self Hwf) as (self' & Hup & _ & Hbin).
    eauto.
  - intros option self' w' Hpop Hsrc.
    exact (populate_board_binary self self' w w' option Hpop Hsrc).
  - intros Hbin. split; [reflexivity |].
    exists (<["Saved" := tolist (board self)]> (CONFIG self)), (data (board self)).
    split_and!; [reflexivity | apply lookup_insert_eq | exact Hbin].
Qed.

Lemma cells_stay_binary_witness :
  (exists self', update_board blinker_5x5 = Ok self' /\ binary (board self'))
  /\ (forall self' w',
        populate_board blinker_5x5 sample_world "Glider" = Ok (self', w') ->
        binary (board self'))
  /\ (forall self' w',
        populate_board blinker_5x5 sample_world "Random" = Ok (self', w') ->
        binary (board self'))
  /\ populate_board blinker_5x5 sample_world "Random"
     = Ok (set_CONFIG
             (game_of 5 5 [[0; 1; 0; 0; 1]; [0; 0; 1; 0; 0]; [1; 0; 0; 1; 0];
                           [0; 1; 0; 0; 1]; [0; 0; 1; 0; 0]])
             sample_config,
           set_drawn sample_world 25).
Proof.
  destruct (cells_stay_binary blinker_5x5 sample_world) as (Hup & Hpop & _).
  split_and!.
  - apply Hup. compute_done.
  - intros self' w' Hok. apply (Hpop "Glider" self' w' Hok).
    right. exists sample_config, glider.
    split_and!; [reflexivity | vm_compute; reflexivity | compute_done].
  - intros self' w' Hok. apply (Hpop "Random" self' w' Hok).
    left. reflexivity.
  - vm_compute. reflexivity.
Defined.

(** ** The interaction loop *)

Lemma foldM_ok {A B : Type} (f : A -> B -> result A) (l : list B) :
  (forall a b, b ∈ l -> exists a', f a b = Ok a') ->
  forall a, exists a', foldM f a l = Ok a'.
Proof.
  induction l as [| b l IH]; intros Hf a; cbn [foldM]; [eauto |].
  destruct (Hf a b) as [a1 Ha1]; [apply list_elem_of_here |].
  rewrite Ha1. cbn [mbind result_bind].
  apply IH. intros a2 b2 Hin. apply Hf. apply list_elem_of_further. exact Hin.
Qed.

(** The menu is drawn without an exception: every key it reads in
    [OPTIONS] is there. *)
Lemma print_menu_ok (self : GameOfLife) (w : World) :
  exists w', print_menu self w = Ok w'.
Proof.
  unfold print_menu, print_side_menu.
  match goal with
  | |- context [foldM ?f ?a ?l] =>
      assert (forall a0 b, b ∈ l -> exists a', f a0 b = Ok a') as Hf;
        [| destruct (foldM_ok f l Hf a) as [w1 Hw1]]
  end.
  - intros a i Hin. cbn beta. apply elem_of_seq in Hin.
    assert (i = 0 \/ i = 1 \/ i = 2 \/ i = 3 \/ i = 4 \/ i = 5 \/ i = 6
            \/ i = 7 \/ i = 8 \/ i = 9)%nat as Hi by lia.
    repeat destruct Hi as [-> | Hi]; try subst i;
      (change (dict_get OPTIONS _) with (@Ok string "Block")
       || change (dict_get OPTIONS _) with (@Ok string "Beehive")
       || change (dict_get OPTIONS _) with (@Ok string "Loaf")
       || change (dict_get OPTIONS _) with (@Ok string "Boat")
       || change (dict_get OPTIONS _) with (@Ok string "Tub")
       || change (dict_get OPTIONS _) with (@Ok string "Blinker")
       || change (dict_get OPTIONS _) with (@Ok string "Toad")
       || change (dict_get OPTIONS _) with (@Ok string "Beacon")
       || change (dict_get OPTIONS _) with (@Ok string "Glider")
       || change (dict_get OPTIONS _) with (@Ok string "Saved"));
      cbn [mbind result_bind]; eauto.
  - rewrite Hw1. cbn [mbind result_bind].
    change (dict_get OPTIONS ord_r) with (@Ok string "Random").
    cbn [mbind result_bind]. eauto.
Qed.

Lemma OPTIONS_keys (key : Z) :
  is_option_key key = false -> OPTIONS !! key = None.
Proof.
  unfold is_option_key. cbn [seq map existsb].
  rewrite !orb_false_iff. unfold ord_0, ord_r.
  intros [(H0 & H1 & H2 & H3 & H4 & H5 & H6 & H7 & H8 & H9 & _) Hr].
  apply Z.eqb_neq in H0, H1, H2, H3, H4, H5, H6, H7, H8, H9, Hr.
  unfold OPTIONS, ord_0, ord_r. cbn [list_to_map foldr uncurry].
  rewrite !lookup_insert_ne by (cbn in *; lia).
  apply lookup_empty.
Qed.

(** C4 on the code: a key that is bound to no command is skipped by
    [game_loop], the state, the file and the screen being left as they
    are; but as the first key of the session it is looked up in [OPTIONS]
    by [game_controller], which raises [KeyError]. *)
Theorem unrecognized_key_skipped_or_raises (self : GameOfLife) (w : World)
  (key : Z) (keys : list Z) :
  recognized key = false ->
  game_loop self w (key :: keys) = game_loop self w keys
  /\ game_controller self w (key :: keys) = Raise KeyError.
Proof.
  unfold recognized. rewrite !orb_false_iff.
  intros (((((Henter & Hs) & HS) & Hopt) & Hq) & HQ). split.
  - cbn [game_loop]. rewrite Henter, Hs, HS, Hopt, Hq, HQ. reflexivity.
  - unfold game_controller. cbn zeta.
    match goal with
    | |- context [print_menu ?s ?w0] =>
        destruct (print_menu_ok s w0) as [w1 Hw1]; rewrite Hw1
    end.
    cbn [mbind result_bind]. unfold dict_get.
    rewrite (OPTIONS_keys key Hopt). reflexivity.
Qed.

Lemma unrecognized_key_skipped_or_raises_witness :
  game_loop blinker_5x5 sample_world [ord_x]
  = game_loop blinker_5x5 sample_world []
  /\ game_controller init sample_world [ord_x] = Raise KeyError.
Proof.
  split.
  - apply (unrecognized_key_skipped_or_raises blinker_5x5 sample_world ord_x []).
    reflexivity.
  - apply (unrecognized_key_skipped_or_raises init sample_world ord_x []).
    reflexivity.
Defined.

(** A session: the glider is chosen, an unbound key is skipped, one
    generation is computed, the board is saved and the loop is left. *)
Example game_controller_session :
  (r ← game_controller init sample_world [ord_0 + 8; ord_x; 10; ord_s; ord_q];
   Ok (fst (fst r), data (board (snd (fst r)))))
  = Ok (Finished,
        ([([0; 0; 0] ++ replicate 61 0)%list;
          ([1; 0; 1] ++ replicate 61 0)%list;
          ([0; 1; 1] ++ replicate 61 0)%list;
          ([0; 1; 0] ++ replicate 61 0)%list]
         ++ replicate 14 (replicate 64 0))%list).
Proof. vm_compute. reflexivity. Qed.

(** * Further properties *)

(** ** What a seeding establishes, and how it fails *)

Lemma wf_randint (low high : Z) (r c : nat) (w : World) :
  wf_array (fst (randint low high r c w)).
Proof.
  unfold randint, wf_array. cbn [fst nrows ncols data]. split.
  - rewrite length_fmap, length_seq. reflexivity.
  - apply Forall_fmap, Forall_forall. intros i _. cbn.
    rewrite length_fmap, length_seq. reflexivity.
Qed.

Lemma setitem_slice_wf (a v b : ndarray) (stop_r stop_c : nat) :
  wf_array a -> setitem_slice a stop_r stop_c v = Ok b ->
  wf_array b /\ nrows b = nrows a /\ ncols b = ncols a.
Proof.
  intros Hwf Hset.
  destruct (broadcastable (nrows v) (ncols v)
              (Nat.min stop_r (nrows a)) (Nat.min stop_c (ncols a))) eqn:Hbc.
  - destruct (setitem_slice_ok a v stop_r stop_c Hwf Hbc)
      as (b' & Hset' & Hwfb & Hr & Hc & _).
    assert (b' = b) as -> by congruence. auto.
  - rewrite (setitem_slice_raises a v stop_r stop_c Hbc) in Hset. discriminate.
Qed.

Lemma populate_board_ok_inv (self self' : GameOfLife)
  (w w' : World) (option : string) :
  populate_board self w option = Ok (self', w') ->
  wf_game self'
  /\ 0 <= ROWS self /\ 0 <= COLS self
  /\ ROWS self' = ROWS self /\ COLS self' = COLS self
  /\ SCREEN_WIDTH self' = SCREEN_WIDTH self
  /\ SCREEN_HEIGHT self' = SCREEN_HEIGHT self
  /\ config_json w = Some (CONFIG self')
  /\ config_json w' = config_json w /\ stdscr w' = stdscr w.
Proof.
  unfold populate_board, load_config. intros Hpop.
  destruct (config_json w) as [f |] eqn:Hfile; [| discriminate].
  cbn [mbind result_bind set_CONFIG set_board ROWS COLS CONFIG board] in Hpop.
  unfold np_zeros in Hpop.
  destruct (Z.ltb_spec (ROWS self) 0) as [HR | HR]; [discriminate |].
  destruct (Z.ltb_spec (COLS self) 0) as [HC | HC]; [discriminate |].
  cbn [orb mbind result_bind] in Hpop.
  destruct (String.eqb option "Random").
  - pose proof (wf_randint 0 2 (Z.to_nat (ROWS self)) (Z.to_nat (COLS self)) w)
      as Hwf.
    unfold randint in *. cbn [fst] in Hwf. inversion Hpop; subst; clear Hpop.
    cbn. split_and!; auto.
    split; [exact Hwf |]. cbn. lia.
  - destruct (config_get f option) as [p |]; [| discriminate].
    cbn [mbind result_bind] in Hpop.
    destruct (list_first p) as [row0 |]; [| discriminate].
    cbn [mbind result_bind] in Hpop.
    destruct (asarray p) as [v |]; [| discriminate].
    cbn [mbind result_bind] in Hpop.
    destruct (setitem_slice _ _ _ v) as [b |] eqn:Hb; [| discriminate].
    apply setitem_slice_wf in Hb as (Hwfb & Hrb & Hcb); [| apply wf_zeros].
    inversion Hpop; subst; clear Hpop. cbn.
    split_and!; auto.
    split; [exact Hwfb |]. cbn. rewrite Hrb, Hcb. cbn. lia.
Qed.

(** X1: whenever [populate_board] returns, from any state and for any
    option, the board it leaves has the shape (ROWS, COLS), which are not
    negative; the dimensions of the board and of the screen are kept, the
    configuration in memory is the content of the file, and neither the
    file nor the screen is touched. *)
Theorem populate_board_establishes_shape (self self' : GameOfLife)
  (w w' : World) (option : string) :
  populate_board self w option = Ok (self', w') ->
  wf_game self'
  /\ 0 <= ROWS self /\ 0 <= COLS self
  /\ ROWS self' = ROWS self /\ COLS self' = COLS self
  /\ SCREEN_WIDTH self' = SCREEN_WIDTH self
  /\ SCREEN_HEIGHT self' = SCREEN_HEIGHT self
  /\ config_json w = Some (CONFIG self')
  /\ config_json w' = config_json w /\ stdscr w' = stdscr w.
Proof.
  intros Hpop.
  destruct (populate_board_ok_inv self self' w w' option Hpop)
    as (Hwf & HR & HC & Hrows & Hcols & Hsw & Hsh & Hcfg & Hfile & Hscr).
  split_and!; assumption.
Qed.

Lemma populate_board_establishes_shape_witness :
  wf_game glider_5x5
  /\ 0 <= ROWS blinker_5x5 /\ 0 <= COLS blinker_5x5
  /\ ROWS glider_5x5 = ROWS blinker_5x5 /\ COLS glider_5x5 = COLS blinker_5x5
  /\ SCREEN_WIDTH glider_5x5 = SCREEN_WIDTH blinker_5x5
  /\ SCREEN_HEIGHT glider_5x5 = SCREEN_HEIGHT blinker_5x5
  /\ config_json sample_world = Some (CONFIG glider_5x5)
  /\ config_json sample_world = config_json sample_world
  /\ stdscr sample_world = stdscr sample_world.
Proof.
  apply (populate_board_establishes_shape blinker_5x5 glider_5x5
           sample_world sample_world "Glider").
  vm_compute. reflexivity.
Defined.

(** X2: how [populate_board] fails. Without the file it raises [OSError]
    for every option, "Random" included; with a negative dimension it
    raises [ValueError] for every option; and for a template option on
    non-negative dimensions it raises [KeyError] when the file has no such
    template, [IndexError] when the template is the empty list and
    [ValueError] when the rows of the template differ in length. *)
Theorem populate_board_errors (self : GameOfLife) (w : World)
  (option : string) :
  (config_json w = None -> populate_board self w option = Raise OSError)
  /\ (forall f, config_json w = Some f ->
       ROWS self < 0 \/ COLS self < 0 ->
       populate_board self w option = Raise ValueError)
  /\ (forall f, config_json w = Some f ->
       0 <= ROWS self -> 0 <= COLS self -> option <> "Random" ->
       (f !! option = None -> populate_board self w option = Raise KeyError)
       /\ (f !! option = Some [] ->
           populate_board self w option = Raise IndexError)
       /\ (forall p, f !! option = Some p -> p <> [] -> ~ rectangular p ->
           populate_board self w option = Raise ValueError)).
Proof.
  unfold populate_board, load_config. split_and!.
  - intros ->. reflexivity.
  - intros f -> Hneg.
    cbn [mbind result_bind set_CONFIG ROWS COLS]. unfold np_zeros.
    destruct (Z.ltb_spec (ROWS self) 0); [reflexivity |].
    destruct (Z.ltb_spec (COLS self) 0); [reflexivity | lia].
  - intros f -> HR HC Hopt.
    cbn [mbind result_bind set_CONFIG ROWS COLS].
    rewrite np_zeros_ok by assumption. cbn [mbind result_bind].
    rewrite (not_Random _ Hopt).
    unfold config_get. cbn [set_board set_CONFIG CONFIG]. split_and!.
    + intros ->. reflexivity.
    + intros ->. reflexivity.
    + intros p -> Hne Hrag. cbn [mbind result_bind].
      destruct p as [| row0 rest]; [contradiction |].
      cbn [list_first mbind result_bind]. unfold asarray.
      destruct (forallb _ _) eqn:Hall; [| reflexivity].
      contradiction Hrag. unfold rectangular, pattern_cols.
      cbn [head default from_option]. unfold id.
      apply forallb_Forall in Hall. eapply Forall_impl; [exact Hall |].
      intros row Hrow. cbn beta in Hrow. apply Nat.eqb_eq. exact Hrow.
Qed.

Lemma populate_board_errors_witness :
  populate_board blinker_5x5 no_file_world "Random" = Raise OSError
  /\ populate_board (set_screen init tiny_world) tiny_world "Random"
     = Raise ValueError
  /\ populate_board init sample_world "Saved" = Raise KeyError
  /\ populate_board init empty_template_world "Empty" = Raise IndexError.
Proof.
  split_and!.
  - apply (populate_board_errors blinker_5x5 no_file_world "Random").
    reflexivity.
  - apply (populate_board_errors (set_screen init tiny_world) tiny_world
             "Random") with (f := sample_config); [reflexivity |].
    left. vm_compute. reflexivity.
  - apply (populate_board_errors init sample_world "Saved")
      with (f := sample_config);
      [reflexivity | cbn; lia | cbn; lia | discriminate |].
    vm_compute. reflexivity.
  - apply (populate_board_errors init empty_template_world "Empty")
      with (f := <["Empty" := []]> sample_config);
      [reflexivity | cbn; lia | cbn; lia | discriminate |].
    vm_compute. reflexivity.
Defined.

(** ** When a seeding returns *)





(** X4: the "Random" option is seeded without an exception exactly when
    the file is there and the dimensions are not negative; the templates of
    the file play no part. *)
Theorem random_seeding_returns_iff (self : GameOfLife) (w : World) :
  (exists self' w', populate_board self w "Random" = Ok (self', w'))
  <-> (exists f, config_json w = Some f) /\ 0 <= ROWS self /\ 0 <= COLS self.
Proof.
  unfold populate_board, load_config. split.
  - intros (self' & w' & Hpop).
    destruct (config_json w) as [f |]; [| discriminate].
    cbn [mbind result_bind set_CONFIG set_board ROWS COLS CONFIG board] in Hpop.
    unfold np_zeros in Hpop.
    destruct (Z.ltb_spec (ROWS self) 0) as [HR | HR]; [discriminate |].
    destruct (Z.ltb_spec (COLS self) 0) as [HC | HC]; [discriminate |].
    eauto.
  - intros ([f ->] & HR & HC).
    cbn [mbind result_bind set_CONFIG set_board ROWS COLS CONFIG board].
    rewrite np_zeros_ok by assumption. cbn [mbind result_bind].
    change (String.eqb "Random" "Random") with true. cbn iota.
    destruct (randint 0 2 _ _ w) as [b w1]. eauto.
Qed.

(** ** Drawing *)

Lemma call_as_calls_on (w : World) (c : curses_call) :
  call w c = calls_on w [c].
Proof. reflexivity. Qed.

Lemma call_calls_on (w : World) (cs : list curses_call) (c : curses_call) :
  call (calls_on w cs) c = calls_on w (c :: cs).
Proof. reflexivity. Qed.

Lemma calls_on_nil (w : World) : calls_on w [] = w.
Proof. destruct w. reflexivity. Qed.

Lemma calls_on_calls_on (w : World) (cs cs' : list curses_call) :
  calls_on (calls_on w cs) cs' = calls_on w (cs' ++ cs).
Proof. unfold calls_on. cbn. rewrite app_assoc. reflexivity. Qed.


Section Draw.
Variable self : GameOfLife.
Hypothesis Hwf : wf_game self.

Lemma draw_cell_ok (w : World) (i j : nat) :
  (i < nrows (board self))%nat -> (j < ncols (board self))%nat ->
  draw_cell self w (i, j) = Ok (call w (cell_call self (i, j))).
Proof.
  intros Hi Hj. unfold draw_cell, cell_call. cbn [fst snd].
  rewrite getitem_nat by (auto; apply Hwf). cbn [mbind result_bind].
  destruct (_ =? 1); reflexivity.
Qed.

Lemma draw_loop (l : list (nat * nat)) :
  Forall (fun rc => (fst rc < nrows (board self))%nat
                    /\ (snd rc < ncols (board self))%nat) l ->
  forall w, foldM (draw_cell self) w l
            = Ok (calls_on w (rev (cell_call self <$> l))).
Proof.
  induction 1 as [| [i j] l [Hi Hj] Hl IH]; intros w.
  - cbn. rewrite calls_on_nil. reflexivity.
  - cbn [foldM fst snd] in *. rewrite draw_cell_ok by assumption.
    cbn [mbind result_bind]. rewrite IH.
    rewrite call_as_calls_on, calls_on_calls_on.
    rewrite fmap_cons. cbn [rev]. reflexivity.
Qed.
End Draw.

Lemma draw_board_calls (self : GameOfLife) (w : World) :
  wf_game self ->
  draw_board self w
  = Ok (calls_on w (Refresh
                      :: rev (cell_call self <$> ndindex (shape (board self))))).
Proof.
  intros Hwf. unfold draw_board. rewrite draw_loop; [| exact Hwf |].
  - cbn [mbind result_bind]. rewrite call_calls_on. reflexivity.
  - apply Forall_forall. intros [i j] Hin.
    apply elem_of_ndindex in Hin. exact Hin.
Qed.



Example draw_board_single_2x2 :
  (w ← draw_board single_2x2 sample_world; Ok (stdscr w))
  = Ok [Refresh; Addstr 5 4 BLANK; Addstr 5 3 BLANK; Addstr 4 4 BLANK;
        Addstr 4 3 FILLED].
Proof. vm_compute. reflexivity. Qed.


(** ** The loop, key after key *)

Lemma draw_board_ok (self : GameOfLife) (w : World) :
  wf_game self ->
  exists cs, draw_board self w = Ok (calls_on w cs).
Proof. intros Hwf. eexists. apply draw_board_calls. exact Hwf. Qed.

Lemma update_board_ok (self : GameOfLife) :
  wf_game self ->
  exists nb,
    update_board self = Ok (set_board self nb)
    /\ wf_game (set_board self nb).
Proof.
  intros Hwf.
  destruct (update_board_cells self Hwf) as (nb & Hup & Hwfb & Hr & Hc & _).
  exists nb. split; [exact Hup |].
  destruct Hwf as (_ & HR & HC).
  split; [exact Hwfb |]. cbn. split; congruence.
Qed.

(** X7: the loop reads its keys one after the other: running it on
    [keys1 ++ keys2] is running it on [keys1] and then, if no exception was
    raised and the loop was not left, on [keys2] from the state reached;
    after a quit key nothing more is read. *)
Theorem game_loop_sequential (self : GameOfLife) (w : World)
  (keys1 keys2 : list Z) :
  game_loop self w (keys1 ++ keys2)
  = r ← game_loop self w keys1; and_then r keys2.
Proof.
  revert self w. induction keys1 as [| key keys1 IH]; intros self w.
  - reflexivity.
  - cbn [app game_loop].
    destruct (is_enter key).
    { destruct (update_board self) as [self1 |]; [| reflexivity].
      cbn [mbind result_bind].
      destruct (draw_board self1 w) as [w1 |]; [| reflexivity].
      cbn [mbind result_bind]. apply IH. }
    destruct ((key =? ord_s) || (key =? ord_S)).
    { destruct (save_config self w) as [self1 w1]. apply IH. }
    destruct (is_option_key key).
    { destruct (dict_get OPTIONS key) as [option |]; [| reflexivity].
      cbn [mbind result_bind].
      destruct (populate_board self w option) as [sw |]; [| reflexivity].
      cbn [mbind result_bind].
      destruct (draw_board (fst sw) (snd sw)) as [w1 |]; [| reflexivity].
      cbn [mbind result_bind]. apply IH. }
    destruct ((key =? ord_q) || (key =? ord_Q)); [reflexivity |].
    apply IH.
Qed.



(** The shape of the board through the loop. *)
Lemma game_loop_keeps_shape (keys : list Z) :
  forall (self self' : GameOfLife) (w w' : World) (st : session),
    wf_game self ->
    game_loop self w keys = Ok (st, self', w') ->
    wf_game self' /\ ROWS self' = ROWS self /\ COLS self' = COLS self.
Proof.
  induction keys as [| key keys IH]; intros self self' w w' st Hwf Hloop.
  - cbn in Hloop. inversion Hloop; subst. auto.
  - cbn [game_loop] in Hloop. destruct (is_enter key).
    { destruct (update_board_ok self Hwf) as (nb & Hup & Hwf1).
      rewrite Hup in Hloop. cbn [mbind result_bind] in Hloop.
      destruct (draw_board (set_board self nb) w) as [w1 |]; [| discriminate].
      cbn [mbind result_bind] in Hloop.
      apply IH in Hloop; [| exact Hwf1]. exact Hloop. }
    destruct ((key =? ord_s) || (key =? ord_S)).
    { cbn [save_config] in Hloop. apply IH in Hloop; [| exact Hwf].
      exact Hloop. }
    destruct (is_option_key key).
    { destruct (dict_get OPTIONS key) as [option |]; [| discriminate].
      cbn [mbind result_bind] in Hloop.
      destruct (populate_board self w option) as [[self1 w1] |] eqn:Hpop;
        [| discriminate].
      cbn [mbind result_bind fst snd] in Hloop.
      destruct (draw_board self1 w1) as [w2 |]; [| discriminate].
      cbn [mbind result_bind] in Hloop.
      destruct (populate_board_ok_inv _ _ _ _ _ Hpop)
        as (Hwf1 & _ & _ & HR1 & HC1 & _).
      apply IH in Hloop; [| exact Hwf1].
      destruct Hloop as (Hwf' & HR & HC). split_and!; congruence. }
    destruct ((key =? ord_q) || (key =? ord_Q)).
    { inversion Hloop; subst. auto. }
    apply IH in Hloop; [| exact Hwf]. exact Hloop.
Qed.

(** X9: once a session is past its first key, the board has
    [height - 6] rows and [width - 16] columns of the terminal, none of
    them negative, whatever keys were read since. *)
Theorem session_board_shape (self self' : GameOfLife) (w w' : World)
  (key : Z) (keys : list Z) (st : session) :
  game_controller self w (key :: keys) = Ok (st, self', w') ->
  wf_game self'
  /\ ROWS self' = fst (maxyx w) - 6 /\ COLS self' = snd (maxyx w) - 16
  /\ 0 <= ROWS self' /\ 0 <= COLS self'.
Proof.
  unfold game_controller. cbn zeta. intros Hrun.
  destruct (print_menu _ _) as [w1 |]; [| discriminate].
  cbn [mbind result_bind] in Hrun.
  destruct (dict_get OPTIONS key) as [option |]; [| discriminate].
  cbn [mbind result_bind] in Hrun.
  destruct (populate_board (set_screen self w) w1 option)
    as [[self1 w2] |] eqn:Hpop; [| discriminate].
  cbn [mbind result_bind fst snd] in Hrun.
  destruct (draw_board self1 w2) as [w3 |]; [| discriminate].
  cbn [mbind result_bind] in Hrun.
  destruct (populate_board_ok_inv _ _ _ _ _ Hpop)
    as (Hwf1 & HR0 & HC0 & HR1 & HC1 & _).
  destruct (game_loop_keeps_shape keys self1 self' w3 w' st Hwf1 Hrun)
    as (Hwf' & HR & HC).
  assert (ROWS (set_screen self w) = fst (maxyx w) - 6
          /\ COLS (set_screen self w) = snd (maxyx w) - 16) as [HRs HCs].
  { unfold set_screen. destruct (maxyx w) as [h wd].
    unfold TOP_MARGIN, BOTTOM_MARGIN, LEFT_MARGIN, RIGHT_MARGIN. cbn. lia. }
  split_and!; [exact Hwf' | lia ..].
Qed.

Lemma session_board_shape_witness :
  exists st self' w',
    game_controller init sample_world [ord_0 + 8; 10; ord_s; ord_0; ord_q]
    = Ok (st, self', w')
    /\ wf_game self'
    /\ ROWS self' = fst (maxyx sample_world) - 6
    /\ COLS self' = snd (maxyx sample_world) - 16
    /\ 0 <= ROWS self' /\ 0 <= COLS self'.
Proof.
  assert (exists r, game_controller init sample_world
                      [ord_0 + 8; 10; ord_s; ord_0; ord_q] = Ok r)
    as [[[st self'] w'] Hrun] by (vm_compute; eexists; reflexivity).
  exists st, self', w'. split; [exact Hrun |].
  exact (session_board_shape init self' sample_world w' _ _ st Hrun).
Defined.

(** ** The cells through the loop *)

Lemma update_board_ok_binary (self : GameOfLife) :
  wf_game self ->
  exists nb,
    update_board self = Ok (set_board self nb)
    /\ wf_game (set_board self nb) /\ binary nb.
Proof.
  intros Hwf.
  destruct (update_board_cells self Hwf) as (nb & Hup & Hwfb & Hr & Hc & Hcells).
  exists nb. split; [exact Hup |].
  pose proof Hwf as (_ & HR & HC).
  split.
  - split; [exact Hwfb |]. cbn. split; congruence.
  - apply binary_of_peek; [exact Hwfb |].
    intros i j Hi Hj. rewrite Hcells by lia. apply next_state_binary.
Qed.

(** X10: the loop keeps the cells 0 or 1. From a board of 0/1 cells, with
    0/1 templates in memory and in the file, every state that the loop
    returns has a board of 0/1 cells and 0/1 templates in memory and in
    the file, whatever keys were read. *)
Theorem game_loop_keeps_binary (keys : list Z) :
  forall (self self' : GameOfLife) (w w' : World) (st : session),
    wf_game self ->
    binary (board self) -> templates_binary (CONFIG self) ->
    (forall f, config_json w = Some f -> templates_binary f) ->
    game_loop self w keys = Ok (st, self', w') ->
    binary (board self') /\ templates_binary (CONFIG self')
    /\ (forall f, config_json w' = Some f -> templates_binary f).
Proof.
  induction keys as [| key keys IH];
    intros self self' w w' st Hwf Hbin Hcfg Hfile Hloop.
  - cbn in Hloop. inversion Hloop; subst. auto.
  - cbn [game_loop] in Hloop. destruct (is_enter key).
    { destruct (update_board_ok_binary self Hwf) as (nb & Hup & Hwf1 & Hbin1).
      rewrite Hup in Hloop. cbn [mbind result_bind] in Hloop.
      destruct (draw_board_ok (set_board self nb) w Hwf1) as (cs & Hdraw).
      rewrite Hdraw in Hloop. cbn [mbind result_bind] in Hloop.
      apply IH in Hloop; auto. }
    destruct ((key =? ord_s) || (key =? ord_S)).
    { cbn [save_config] in Hloop. apply IH in Hloop; auto.
      - cbn [set_CONFIG CONFIG]. unfold templates_binary.
        apply map_Forall_insert_2; [exact Hbin | exact Hcfg].
      - cbn [set_config_json config_json set_CONFIG CONFIG].
        intros f Hf. inversion Hf; subst. unfold templates_binary.
        apply map_Forall_insert_2; [exact Hbin | exact Hcfg]. }
    destruct (is_option_key key).
    { destruct (dict_get OPTIONS key) as [option |]; [| discriminate].
      cbn [mbind result_bind] in Hloop.
      destruct (populate_board self w option) as [[self1 w1] |] eqn:Hpop;
        [| discriminate].
      cbn [mbind result_bind fst snd] in Hloop.
      destruct (draw_board self1 w1) as [w2 |] eqn:Hdraw; [| discriminate].
      cbn [mbind result_bind] in Hloop.
      destruct (populate_board_ok_inv _ _ _ _ _ Hpop)
        as (Hwf1 & _ & _ & _ & _ & _ & _ & Hcfg1 & Hfile1 & _).
      destruct (draw_board_ok self1 w1 Hwf1) as (cs & Hdraw').
      assert (w2 = calls_on w1 cs) as -> by congruence.
      assert (binary (board self1)) as Hbin1.
      { apply (populate_board_binary self self1 w w1 option Hpop).
        destruct (String.eqb_spec option "Random") as [-> | Hne]; [auto |].
        right. exists (CONFIG self1).
        unfold populate_board, load_config in Hpop. rewrite Hcfg1 in Hpop.
        cbn [mbind result_bind set_CONFIG set_board ROWS COLS CONFIG board]
          in Hpop.
        destruct (np_zeros _ _); [| discriminate].
        cbn [mbind result_bind] in Hpop.
        rewrite (not_Random _ Hne) in Hpop. unfold config_get in Hpop.
        destruct (CONFIG self1 !! option) as [p |] eqn:Hp; [| discriminate].
        exists p. split_and!; auto.
        exact (Hfile _ Hcfg1 option p Hp). }
      assert (templates_binary (CONFIG self1)) as Hcfg'
        by exact (Hfile _ Hcfg1).
      assert (forall f, config_json (calls_on w1 cs) = Some f ->
                        templates_binary f) as Hfile'.
      { cbn [calls_on config_json]. rewrite Hfile1. exact Hfile. }
      apply IH in Hloop; auto. }
    destruct ((key =? ord_q) || (key =? ord_Q)).
    { inversion Hloop; subst. auto. }
    apply IH in Hloop; auto.
Qed.

Lemma game_loop_keeps_binary_witness :
  exists st self' w',
    game_loop glider_5x5 sample_world [10; ord_s; ord_0 + 8; 10; ord_0 + 9; 10]
    = Ok (st, self', w')
    /\ binary (board self') /\ templates_binary (CONFIG self')
    /\ (forall f, config_json w' = Some f -> templates_binary f).
Proof.
  assert (exists r, game_loop glider_5x5 sample_world
                      [10; ord_s; ord_0 + 8; 10; ord_0 + 9; 10] = Ok r)
    as [[[st self'] w'] Hrun] by (vm_compute; eexists; reflexivity).
  exists st, self', w'. split; [exact Hrun |].
  apply (game_loop_keeps_binary [10; ord_s; ord_0 + 8; 10; ord_0 + 9; 10]
           glider_5x5 self' sample_world w' st);
    [compute_done | compute_done | compute_done | | exact Hrun].
  intros f Hf. inversion Hf; subst. compute_done.
Defined.

(** ** Saving, stepping and restoring *)





(** ** The save slot *)

(** X12: [save_config] writes the configuration in memory to the file
    with the "Saved" slot replaced by the board; the other templates in
    memory are kept, the board and the screen are untouched, and saving
    again changes nothing. *)
Theorem save_config_slot (self : GameOfLife) (w : World) :
  let self' := fst (save_config self w) in
  let w' := snd (save_config self w) in
  config_json w' = Some (CONFIG self')
  /\ CONFIG self' !! "Saved" = Some (tolist (board self))
  /\ (forall name, name <> "Saved" -> CONFIG self' !! name = CONFIG self !! name)
  /\ board self' = board self
  /\ stdscr w' = stdscr w
  /\ save_config self' w' = (self', w').
Proof.
  cbn zeta. cbn [save_config fst snd set_CONFIG CONFIG board set_config_json
                 config_json stdscr].
  split_and!; try reflexivity.
  - apply lookup_insert_eq.
  - intros name Hname. apply lookup_insert_ne. congruence.
  - unfold save_config.
    cbn [set_CONFIG CONFIG board set_config_json config_json entropy drawn
         maxyx stdscr SCREEN_WIDTH SCREEN_HEIGHT ROWS COLS].
    rewrite insert_insert_eq. reflexivity.
Qed.

(** ** The table of options and the keys of the loop *)

(** X13: the keys that [game_loop] takes for options are exactly the keys
    of [OPTIONS]: the lookup [self.OPTIONS[key]] of the loop never raises
    [KeyError]. *)
Theorem option_keys_are_in_OPTIONS (key : Z) :
  is_option_key key = true <-> exists name, dict_get OPTIONS key = Ok name.
Proof.
  split.
  - unfold is_option_key. cbn [seq map existsb].
    rewrite !orb_true_iff, !Z.eqb_eq. unfold ord_0, ord_r.
    intros [[H | [H | [H | [H | [H | [H | [H | [H | [H | [H | H]]]]]]]]]] | H];
      try discriminate H; subst key; vm_compute; eauto.
  - intros [name Hname].
    destruct (is_option_key key) eqn:Hkey; [reflexivity |].
    unfold dict_get in Hname. rewrite (OPTIONS_keys key Hkey) in Hname.
    discriminate Hname.
Qed.

(** ** The first key of a session *)

(** X14: as the first key of a session, every key that is not an option
    key raises [KeyError]: Enter, the save key and the quit key included. *)
Theorem first_key_must_be_an_option (self : GameOfLife) (w : World)
  (key : Z) (keys : list Z) :
  is_option_key key = false ->
  game_controller self w (key :: keys) = Raise KeyError.
Proof.
  intros Hkey. unfold game_controller. cbn zeta.
  match goal with
  | |- context [print_menu ?s ?w0] =>
      destruct (print_menu_ok s w0) as [w1 Hw1]; rewrite Hw1
  end.
  cbn [mbind result_bind]. unfold dict_get.
  rewrite (OPTIONS_keys key Hkey). reflexivity.
Qed.

Lemma first_key_must_be_an_option_witness :
  game_controller init sample_world [ord_q] = Raise KeyError
  /\ game_controller init sample_world [10; ord_0] = Raise KeyError
  /\ game_controller init sample_world [ord_s] = Raise KeyError.
Proof.
  split_and!;
    apply (first_key_must_be_an_option init sample_world); reflexivity.
Defined.

(** ** Boards without rows or columns, and before the first seeding *)

Lemma ndindex_first (r c : nat) :
  exists l, ndindex (S r, S c) = (0%nat, 0%nat) :: l.
Proof.
  unfold ndindex. cbn [fst snd seq mbind list_bind app]. eauto.
Qed.

(** X15: with zero rows or zero columns [count_alive_neighbours] raises
    [ZeroDivisionError] at every coordinate, and so does [update_board]
    when the board itself has a cell, as in a fresh object that was never
    seeded. *)
Theorem empty_dimension_divides_by_zero (self : GameOfLife) :
  ROWS self = 0 \/ COLS self = 0 ->
  (forall r c, count_alive_neighbours self r c = Raise ZeroDivisionError)
  /\ ((0 < nrows (board self))%nat -> (0 < ncols (board self))%nat ->
      update_board self = Raise ZeroDivisionError).
Proof.
  intros Hzero.
  assert (forall r c,
            count_alive_neighbours self r c = Raise ZeroDivisionError) as Hcount.
  { assert (forall x acc y,
              count_inner self (x, acc) y = Raise ZeroDivisionError) as Hinner.
    { intros x acc y. unfold count_inner, py_mod.
      destruct (Z.eqb_spec (ROWS self) 0) as [HR | HR]; [reflexivity |].
      cbn [mbind result_bind].
      destruct (Z.eqb_spec (COLS self) 0) as [HC | HC]; [reflexivity | lia]. }
    intros r c. unfold count_alive_neighbours, count_outer.
    rewrite !py_range_3. cbn [foldM]. rewrite Hinner. reflexivity. }
  split; [exact Hcount |].
  intros Hr Hc. unfold update_board, shape.
  destruct (nrows (board self)) as [| r]; [lia |].
  destruct (ncols (board self)) as [| c]; [lia |].
  destruct (ndindex_first r c) as [l ->].
  cbn [foldM].
  assert (forall nb rc, update_cell self nb rc = Raise ZeroDivisionError)
    as Hcell.
  { intros nb rc. unfold update_cell. cbn zeta. rewrite Hcount. reflexivity. }
  rewrite Hcell. reflexivity.
Qed.

Lemma empty_dimension_divides_by_zero_witness :
  (forall r c, count_alive_neighbours init r c = Raise ZeroDivisionError)
  /\ update_board init = Raise ZeroDivisionError.
Proof.
  destruct (empty_dimension_divides_by_zero init) as [Hcount Hupdate].
  - left. reflexivity.
  - split; [exact Hcount |]. apply Hupdate; cbn; lia.
Defined.

(** ** The smallest board *)

(** X16: on a 1x1 board the cell is its own eight neighbours: the count is
    eight times the cell on a 0/1 board, and after one generation the cell
    is dead, whatever it was. *)
Theorem one_cell_board_dies (self : GameOfLife) :
  wf_game self -> ROWS self = 1 -> COLS self = 1 ->
  (binary (board self) ->
   count_alive_neighbours self 0 0 = Ok (8 * peek (board self) 0 0))
  /\ update_board self = Ok (set_board self (zeros 1 1)).
Proof.
  intros Hwf HR HC. pose proof Hwf as (Hwfb & HRb & HCb).
  assert (forall x y, torus self x y = peek (board self) 0 0) as Htorus.
  { intros x y. unfold torus. rewrite HR, HC, !Z.mod_1_r. reflexivity. }
  split.
  - intros Hbin. rewrite count_in_range by (auto; lia).
    f_equal. unfold neighbour_sum. rewrite block_sum_eq, !Htorus.
    destruct (peek_binary (board self) 0 0 Hwfb Hbin) as [-> | ->];
      [lia | lia | reflexivity | reflexivity].
  - destruct (update_board_cells self Hwf) as (nb & Hup & Hwfnb & Hr & Hc & Hcells).
    rewrite Hup. do 2 f_equal.
    apply array_ext; auto using wf_zeros.
    + cbn. lia.
    + cbn. lia.
    + intros i j Hi Hj. rewrite peek_zeros.
      assert (i = 0%nat) as -> by lia. assert (j = 0%nat) as -> by lia.
      rewrite Hcells by lia.
      unfold neighbour_sum. rewrite block_sum_eq, !Htorus.
      unfold next_state.
      destruct (Z.eqb_spec (peek (board self) 0 0) 1) as [-> | _];
        [reflexivity |].
      destruct (Z.eqb_spec (peek (board self) 0 0) 0) as [-> | _];
        reflexivity.
Qed.

Lemma one_cell_board_dies_witness :
  (binary (board alone_1x1) ->
   count_alive_neighbours alone_1x1 0 0 = Ok (8 * peek (board alone_1x1) 0 0))
  /\ update_board alone_1x1 = Ok (set_board alone_1x1 (zeros 1 1)).
Proof.
  apply (one_cell_board_dies alone_1x1); [compute_done | reflexivity ..].
Defined.

(** ** Overpopulation *)

(** X17: on a board whose cells are all alive, of any size, every cell has
    eight alive neighbours and the whole board is dead after one
    generation. *)
Theorem all_alive_board_dies (self : GameOfLife) :
  wf_game self ->
  (forall r c, 0 <= r < ROWS self -> 0 <= c < COLS self ->
               getitem (board self) r c = Ok 1) ->
  (forall r c, 0 <= r < ROWS self -> 0 <= c < COLS self ->
               count_alive_neighbours self r c = Ok 8)
  /\ update_board self
     = Ok (set_board self (zeros (nrows (board self)) (ncols (board self)))).
Proof.
  intros Hwf Halive. pose proof Hwf as (Hwfb & HRb & HCb).
  assert (forall x y, 0 < ROWS self -> 0 < COLS self -> torus self x y = 1)
    as Htorus.
  { intros x y HR HC.
    pose proof (Z.mod_pos_bound x (ROWS self) HR) as Hx.
    pose proof (Z.mod_pos_bound y (COLS self) HC) as Hy.
    pose proof (Halive (x mod ROWS self) (y mod COLS self) Hx Hy) as Hg.
    rewrite getitem_torus in Hg by (auto; lia).
    rewrite torus_mod_l, torus_mod_r in Hg by lia.
    injection Hg as Hg. exact Hg. }
  assert (forall x y, 0 < ROWS self -> 0 < COLS self ->
                      neighbour_sum self x y = 8) as Hsum.
  { intros x y HR HC. unfold neighbour_sum.
    rewrite block_sum_eq, !Htorus by assumption. reflexivity. }
  split.
  - intros r c Hr Hc. rewrite count_in_range by (auto; lia).
    rewrite Hsum by lia. reflexivity.
  - destruct (update_board_cells self Hwf) as (nb & Hup & Hwfnb & Hr & Hc & Hcells).
    rewrite Hup. do 2 f_equal.
    apply array_ext; auto using wf_zeros.
    intros i j Hi Hj. rewrite peek_zeros, Hcells by lia.
    rewrite Hsum by lia.
    unfold next_state.
    destruct (_ =? 1); [reflexivity |]. destruct (_ =? 0); reflexivity.
Qed.

Lemma all_alive_board_dies_witness :
  (forall r c, 0 <= r < ROWS all_alive_3x4 -> 0 <= c < COLS all_alive_3x4 ->
               count_alive_neighbours all_alive_3x4 r c = Ok 8)
  /\ update_board all_alive_3x4 = Ok (all_dead 3 4).
Proof.
  apply (all_alive_board_dies all_alive_3x4).
  - compute_done.
  - cbn [all_alive_3x4 game_of ROWS COLS board]. intros r c Hr Hc.
    assert (r = 0 \/ r = 1 \/ r = 2) as Hrs by lia.
    assert (c = 0 \/ c = 1 \/ c = 2 \/ c = 3) as Hcs by lia.
    destruct Hrs as [-> | [-> | ->]];
      destruct Hcs as [-> | [-> | [-> | ->]]]; reflexivity.
Defined.

(** ** A still life *)

(** Where the three rows around row [x] of a board of [n >= 4] rows meet
    the two rows of the block. *)
Lemma block_rows (n x : Z) :
  4 <= n -> 0 <= x < n ->
  let above := (x - 1) mod n <? 2 in
  let here := x mod n <? 2 in
  let below := (x + 1) mod n <? 2 in
  (above, here, below) = (false, true, true)
  \/ (above, here, below) = (true, true, false)
  \/ (above, here, below) = (true, false, false)
  \/ (above, here, below) = (false, false, false)
  \/ (above, here, below) = (false, false, true).
Proof.
  intros Hn Hx. cbn zeta.
  rewrite (Z.mod_small x n) by lia.
  assert (x = 0 \/ x = 1 \/ x = 2 \/ 3 <= x <= n - 2 \/ x = n - 1) as Hcases
    by lia.
  destruct Hcases as [-> | [-> | [-> | [Hmid | ->]]]].
  - replace ((0 - 1) mod n) with (n - 1)
      by (apply Z.mod_unique with (q := -1); lia).
    rewrite (Z.mod_small (0 + 1)) by lia.
    destruct (Z.ltb_spec (n - 1) 2); [lia |]. left. reflexivity.
  - rewrite (Z.mod_small (1 - 1)), (Z.mod_small (1 + 1)) by lia.
    right. left. reflexivity.
  - rewrite (Z.mod_small (2 - 1)), (Z.mod_small (2 + 1)) by lia.
    right. right. left. reflexivity.
  - rewrite (Z.mod_small (x - 1)), (Z.mod_small (x + 1)) by lia.
    destruct (Z.ltb_spec (x - 1) 2); [lia |].
    destruct (Z.ltb_spec x 2); [lia |].
    destruct (Z.ltb_spec (x + 1) 2); [lia |].
    right. right. right. left. reflexivity.
  - rewrite (Z.mod_small (n - 1 - 1)) by lia.
    replace (n - 1 + 1) with n by lia. rewrite Z_mod_same_full.
    destruct (Z.ltb_spec (n - 1 - 1) 2); [lia |].
    destruct (Z.ltb_spec (n - 1) 2); [lia |].
    right. right. right. right. reflexivity.
Qed.

(** X18: a 2x2 block at the top-left corner of a board with at least four
    rows and four columns is a still life: [update_board] returns the state
    unchanged. *)
Theorem block_is_still (self : GameOfLife) :
  wf_game self -> 4 <= ROWS self -> 4 <= COLS self ->
  (forall r c, 0 <= r < ROWS self -> 0 <= c < COLS self ->
               getitem (board self) r c
               = Ok (if (r <? 2) && (c <? 2) then 1 else 0)) ->
  update_board self = Ok self.
Proof.
  intros Hwf HR HC Hblock. pose proof Hwf as (Hwfb & HRb & HCb).
  assert (forall x y, torus self x y
                      = if (x mod ROWS self <? 2) && (y mod COLS self <? 2)
                        then 1 else 0) as Htorus.
  { intros x y.
    pose proof (Z.mod_pos_bound x (ROWS self) ltac:(lia)) as Hx.
    pose proof (Z.mod_pos_bound y (COLS self) ltac:(lia)) as Hy.
    pose proof (Hblock (x mod ROWS self) (y mod COLS self) Hx Hy) as Hg.
    rewrite getitem_torus in Hg by (auto; lia).
    rewrite torus_mod_l, torus_mod_r in Hg by lia.
    injection Hg as Hg. exact Hg. }
  destruct (update_board_cells self Hwf) as (nb & Hup & Hwfnb & Hr & Hc & Hcells).
  rewrite Hup. f_equal.
  assert (nb = board self) as ->; [| destruct self; reflexivity].
  apply array_ext; auto.
  intros i j Hi Hj. rewrite Hcells by lia.
  replace (peek (board self) i j) with (torus self (Z.of_nat i) (Z.of_nat j)).
  2:{ unfold torus. rewrite !Z.mod_small, !Nat2Z.id by lia. reflexivity. }
  unfold neighbour_sum. rewrite block_sum_eq, !Htorus.
  pose proof (block_rows (ROWS self) (Z.of_nat i) HR ltac:(lia)) as Hrows.
  pose proof (block_rows (COLS self) (Z.of_nat j) HC ltac:(lia)) as Hcols.
  cbn zeta in Hrows, Hcols.
  destruct Hrows as [Hi3 | [Hi3 | [Hi3 | [Hi3 | Hi3]]]];
    injection Hi3 as -> -> ->;
    destruct Hcols as [Hj3 | [Hj3 | [Hj3 | [Hj3 | Hj3]]]];
    injection Hj3 as -> -> ->;
    vm_compute; reflexivity.
Qed.

Lemma block_is_still_witness : update_board block_6x7 = Ok block_6x7.
Proof.
  apply (block_is_still block_6x7).
  - compute_done.
  - cbn. lia.
  - cbn. lia.
  - cbn [block_6x7 game_of ROWS COLS board]. intros r c Hr Hc.
    assert (r = 0 \/ r = 1 \/ r = 2 \/ r = 3 \/ r = 4 \/ r = 5) as Hrs by lia.
    assert (c = 0 \/ c = 1 \/ c = 2 \/ c = 3 \/ c = 4 \/ c = 5 \/ c = 6)
      as Hcs by lia.
    destruct Hrs as [-> | [-> | [-> | [-> | [-> | ->]]]]];
      destruct Hcs as [-> | [-> | [-> | [-> | [-> | [-> | ->]]]]]];
      reflexivity.
Defined.

(** ** Locality *)

(** X19: the rule is local. If two boards of the same dimensions agree
    on the 3x3 block of the torus around a cell, that cell has the same
    state in both after one generation. *)
Theorem update_board_is_local (self1 self2 : GameOfLife) (r c : Z) :
  wf_game self1 -> wf_game self2 ->
  ROWS self1 = ROWS self2 -> COLS self1 = COLS self2 ->
  0 <= r < ROWS self1 -> 0 <= c < COLS self1 ->
  (forall dr dc, -1 <= dr <= 1 -> -1 <= dc <= 1 ->
                 torus self1 (r + dr) (c + dc) = torus self2 (r + dr) (c + dc)) ->
  exists self1' self2' v,
    update_board self1 = Ok self1' /\ update_board self2 = Ok self2'
    /\ getitem (board self1') r c = Ok v
    /\ getitem (board self2') r c = Ok v.
Proof.
  intros Hwf1 Hwf2 HR HC Hr Hc Hsame.
  pose proof Hwf1 as (Hwfb1 & HR1 & HC1). pose proof Hwf2 as (Hwfb2 & HR2 & HC2).
  destruct (update_board_cells self1 Hwf1)
    as (nb1 & Hup1 & Hwfnb1 & Hr1 & Hc1 & Hcells1).
  destruct (update_board_cells self2 Hwf2)
    as (nb2 & Hup2 & Hwfnb2 & Hr2 & Hc2 & Hcells2).
  exists (set_board self1 nb1), (set_board self2 nb2),
         (peek nb1 (Z.to_nat r) (Z.to_nat c)).
  split_and!; auto; cbn [set_board board].
  - apply getitem_in_range; auto; lia.
  - rewrite getitem_in_range by (auto; lia). f_equal.
    rewrite Hcells1, Hcells2 by lia. rewrite !Z2Nat.id by lia.
    assert (forall s, ROWS s = Z.of_nat (nrows (board s)) ->
                      COLS s = Z.of_nat (ncols (board s)) ->
                      0 <= r < ROWS s -> 0 <= c < COLS s ->
                      peek (board s) (Z.to_nat r) (Z.to_nat c) = torus s r c)
      as Hcentre.
    { intros s Hs1 Hs2 Hs3 Hs4. unfold torus.
      rewrite !Z.mod_small by lia. reflexivity. }
    rewrite !Hcentre by (auto; lia).
    unfold neighbour_sum. rewrite !block_sum_eq.
    pose proof (Hsame (-1) (-1) ltac:(lia) ltac:(lia)) as H1.
    pose proof (Hsame (-1) 0 ltac:(lia) ltac:(lia)) as H2.
    pose proof (Hsame (-1) 1 ltac:(lia) ltac:(lia)) as H3.
    pose proof (Hsame 0 (-1) ltac:(lia) ltac:(lia)) as H4.
    pose proof (Hsame 0 0 ltac:(lia) ltac:(lia)) as H5.
    pose proof (Hsame 0 1 ltac:(lia) ltac:(lia)) as H6.
    pose proof (Hsame 1 (-1) ltac:(lia) ltac:(lia)) as H7.
    pose proof (Hsame 1 0 ltac:(lia) ltac:(lia)) as H8.
    pose proof (Hsame 1 1 ltac:(lia) ltac:(lia)) as H9.
    change (r + -1) with (r - 1) in *. change (c + -1) with (c - 1) in *.
    rewrite !Z.add_0_r in *.
    rewrite H1, H2, H3, H4, H5, H6, H7, H8, H9. reflexivity.
Qed.

Lemma update_board_is_local_witness :
  exists self1' self2' v,
    update_board blinker_5x5 = Ok self1'
    /\ update_board blinker_and_corner_5x5 = Ok self2'
    /\ getitem (board self1') 2 2 = Ok v
    /\ getitem (board self2') 2 2 = Ok v.
Proof.
  apply (update_board_is_local blinker_5x5 blinker_and_corner_5x5 2 2);
    try compute_done; try reflexivity; try (cbn; lia).
  intros dr dc Hdr Hdc.
  assert (dr = -1 \/ dr = 0 \/ dr = 1) as Hdrs by lia.
  assert (dc = -1 \/ dc = 0 \/ dc = 1) as Hdcs by lia.
  destruct Hdrs as [-> | [-> | ->]]; destruct Hdcs as [-> | [-> | ->]];
    reflexivity.
Defined.
